(** * SiteMonitor: adaptive request pacing (site_monitor.py)

    A shallow embedding of the [SiteMonitor] class and the properties of its
    delay controller.

    Numbers.  Python numbers are idealised as exact rationals ([Q]); the
    results of [numpy.mean] and [numpy.std], which are NaN on an empty
    sample, live in [fnum].  [numpy]'s square root is a parameter of the
    development ([sqrt]); nothing is assumed about it except where a
    statement says so.  Counters, thresholds and lengths are integers ([Z]).

    State.  The attributes of a [SiteMonitor] object form the record
    [SiteMonitor]; its dictionaries keyed by category are [gmap string _].
    Methods are functions in a state-and-exception monad: a Python
    exception leaves the mutations made before it in place. *)

From Stdlib Require Import ZArith QArith Qminmax Lia Lqa.
From stdpp Require Import gmap strings list fin_maps.

Local Open Scope Z_scope.

(** ** Rational arithmetic helpers *)

Definition Qltb (x y : Q) : bool := negb (Qle_bool y x).

(** Python's [max(a, b)] returns [b] only when [b > a]; [min(a, b)] returns
    [b] only when [b < a]. *)
Definition py_max (a b : Q) : Q := if Qltb a b then b else a.
Definition py_min (a b : Q) : Q := if Qltb b a then b else a.

Definition Qsum (l : list Q) : Q := foldr Qplus 0%Q l.

(** ** Results of numpy reductions *)

Inductive fnum : Type :=
| NaN
| Fin (q : Q).

(** [a > b] on floats: false as soon as one side is NaN. *)
Definition fgt (a b : fnum) : bool :=
  match a, b with
  | Fin x, Fin y => Qltb y x
  | _, _ => false
  end.

Definition fadd (a b : fnum) : fnum :=
  match a, b with
  | Fin x, Fin y => Fin (x + y)%Q
  | _, _ => NaN
  end.

Definition fscale (k : Q) (a : fnum) : fnum :=
  match a with
  | Fin x => Fin (k * x)%Q
  | NaN => NaN
  end.

Definition Qlen (l : list Q) : Q := inject_Z (Z.of_nat (length l)).

(** [numpy.mean]: NaN on an empty sample. *)
Definition mean (l : list Q) : fnum :=
  match l with
  | [] => NaN
  | _ => Fin (Qsum l / Qlen l)%Q
  end.

(** [l[-n:]], Python's slice with a negated bound: the last [n] items when
    [n > 0] (all of them when there are fewer), the whole list when
    [n = 0], and the list without its first [-n] items when [n < 0]. *)
Definition slice_from_neg (n : Z) (l : list Q) : list Q :=
  let len := Z.of_nat (length l) in
  let start := if 0 <? n then Z.max (len - n) 0 else Z.min (- n) len in
  drop (Z.to_nat start) l.

Section WithSqrt.

(** [numpy.sqrt] on the idealised numbers. *)
Variable sqrt : Q -> Q.

(** [numpy.std] with its default [ddof = 0]: the population standard
    deviation, [sqrt(mean(abs(x - x.mean())**2))]. *)
Definition std (l : list Q) : fnum :=
  match l with
  | [] => NaN
  | _ =>
      let m := (Qsum l / Qlen l)%Q in
      Fin (sqrt (Qsum (map (fun x => (x - m) * (x - m))%Q l) / Qlen l)%Q)
  end.

End WithSqrt.

(** A computable square root on the rationals, [sqrt(n/d)] taken as
    [floor(sqrt(n*d))/d]; it is exact on 0 and 1 and serves to run the
    methods on examples. *)
Definition sqrt_floor (q : Q) : Q := Z.sqrt (Qnum q * QDen q) # Qden q.

(** ** Exceptions and the object state *)

Inductive exn : Type :=
| InvalidCategory      (* raised by the class itself *)
| UnboundLocalError    (* a local variable read before assignment *)
| TypeError            (* an operation on None *)
| KeyError             (* a dictionary read at a missing key *)
| ValueError.          (* time.sleep with a negative length *)

Inductive result (A : Type) : Type :=
| Ok (a : A)
| Raise (e : exn).
Arguments Ok {A} a.
Arguments Raise {A} e.

(** [self.delays]: a dictionary with five fixed keys; ['current'] is None
    until a burn-in ends. *)
Record Delays : Type := mkDelays {
  d_burnin : Q;
  d_min : Q;
  d_max : Q;
  d_interval : Q;
  d_current : option Q
}.

(** The attributes of a [SiteMonitor] object.  A delay is [option Q] where
    Python may hold None.  [delay_tracker] is the [defaultdict] of emission
    counts, kept as an association list read up to numeric equality. *)
Record SiteMonitor : Type := mkSiteMonitor {
  default : string;
  responses : gmap string (list Q);
  delay_tracker : list (option Q * Z);
  delays : Delays;
  baseline_avg : gmap string (option fnum);
  baseline_std : gmap string (option fnum);
  baseline_max : gmap string (option fnum);
  rolling_mean : gmap string (list fnum);
  burn_in : Z;
  choke_point : Q;
  slow_down_thresh : Z;
  speed_up_thresh : Z;
  num_violations : Z;
  num_successes : Z;
  rand : option Q;
  start_delay : Q;
  burnin_over : gmap string bool;
  handle_timer : bool;
  rolling_mean_length : Z
}.

(** Attribute assignments. *)
Definition set_responses (v : gmap string (list Q)) (s : SiteMonitor) : SiteMonitor :=
  mkSiteMonitor (default s) v (delay_tracker s) (delays s) (baseline_avg s)
    (baseline_std s) (baseline_max s) (rolling_mean s) (burn_in s) (choke_point s)
    (slow_down_thresh s) (speed_up_thresh s) (num_violations s) (num_successes s)
    (rand s) (start_delay s) (burnin_over s) (handle_timer s) (rolling_mean_length s).

Definition set_delay_tracker (v : list (option Q * Z)) (s : SiteMonitor) : SiteMonitor :=
  mkSiteMonitor (default s) (responses s) v (delays s) (baseline_avg s)
    (baseline_std s) (baseline_max s) (rolling_mean s) (burn_in s) (choke_point s)
    (slow_down_thresh s) (speed_up_thresh s) (num_violations s) (num_successes s)
    (rand s) (start_delay s) (burnin_over s) (handle_timer s) (rolling_mean_length s).

Definition set_delays (v : Delays) (s : SiteMonitor) : SiteMonitor :=
  mkSiteMonitor (default s) (responses s) (delay_tracker s) v (baseline_avg s)
    (baseline_std s) (baseline_max s) (rolling_mean s) (burn_in s) (choke_point s)
    (slow_down_thresh s) (speed_up_thresh s) (num_violations s) (num_successes s)
    (rand s) (start_delay s) (burnin_over s) (handle_timer s) (rolling_mean_length s).

Definition set_baseline_avg (v : gmap string (option fnum)) (s : SiteMonitor) : SiteMonitor :=
  mkSiteMonitor (default s) (responses s) (delay_tracker s) (delays s) v
    (baseline_std s) (baseline_max s) (rolling_mean s) (burn_in s) (choke_point s)
    (slow_down_thresh s) (speed_up_thresh s) (num_violations s) (num_successes s)
    (rand s) (start_delay s) (burnin_over s) (handle_timer s) (rolling_mean_length s).

Definition set_baseline_std (v : gmap string (option fnum)) (s : SiteMonitor) : SiteMonitor :=
  mkSiteMonitor (default s) (responses s) (delay_tracker s) (delays s) (baseline_avg s)
    v (baseline_max s) (rolling_mean s) (burn_in s) (choke_point s)
    (slow_down_thresh s) (speed_up_thresh s) (num_violations s) (num_successes s)
    (rand s) (start_delay s) (burnin_over s) (handle_timer s) (rolling_mean_length s).

Definition set_baseline_max (v : gmap string (option fnum)) (s : SiteMonitor) : SiteMonitor :=
  mkSiteMonitor (default s) (responses s) (delay_tracker s) (delays s) (baseline_avg s)
    (baseline_std s) v (rolling_mean s) (burn_in s) (choke_point s)
    (slow_down_thresh s) (speed_up_thresh s) (num_violations s) (num_successes s)
    (rand s) (start_delay s) (burnin_over s) (handle_timer s) (rolling_mean_length s).

Definition set_rolling_mean (v : gmap string (list fnum)) (s : SiteMonitor) : SiteMonitor :=
  mkSiteMonitor (default s) (responses s) (delay_tracker s) (delays s) (baseline_avg s)
    (baseline_std s) (baseline_max s) v (burn_in s) (choke_point s)
    (slow_down_thresh s) (speed_up_thresh s) (num_violations s) (num_successes s)
    (rand s) (start_delay s) (burnin_over s) (handle_timer s) (rolling_mean_length s).

Definition set_num_violations (v : Z) (s : SiteMonitor) : SiteMonitor :=
  mkSiteMonitor (default s) (responses s) (delay_tracker s) (delays s) (baseline_avg s)
    (baseline_std s) (baseline_max s) (rolling_mean s) (burn_in s) (choke_point s)
    (slow_down_thresh s) (speed_up_thresh s) v (num_successes s)
    (rand s) (start_delay s) (burnin_over s) (handle_timer s) (rolling_mean_length s).

Definition set_num_successes (v : Z) (s : SiteMonitor) : SiteMonitor :=
  mkSiteMonitor (default s) (responses s) (delay_tracker s) (delays s) (baseline_avg s)
    (baseline_std s) (baseline_max s) (rolling_mean s) (burn_in s) (choke_point s)
    (slow_down_thresh s) (speed_up_thresh s) (num_violations s) v
    (rand s) (start_delay s) (burnin_over s) (handle_timer s) (rolling_mean_length s).


Definition set_burnin_over (v : gmap string bool) (s : SiteMonitor) : SiteMonitor :=
  mkSiteMonitor (default s) (responses s) (delay_tracker s) (delays s) (baseline_avg s)
    (baseline_std s) (baseline_max s) (rolling_mean s) (burn_in s) (choke_point s)
    (slow_down_thresh s) (speed_up_thresh s) (num_violations s) (num_successes s)
    (rand s) (start_delay s) v (handle_timer s) (rolling_mean_length s).

(** [self.delays['current'] = v] *)
Definition set_current (v : option Q) (s : SiteMonitor) : SiteMonitor :=
  set_delays (mkDelays (d_burnin (delays s)) (d_min (delays s)) (d_max (delays s))
                (d_interval (delays s)) v) s.

Definition current (s : SiteMonitor) : option Q := d_current (delays s).

(** ** The monad of methods: state passing with exceptions *)

Definition M (A : Type) : Type := SiteMonitor -> SiteMonitor * result A.

Global Instance M_ret : MRet M := fun A a s => (s, Ok a).
Global Instance M_bind : MBind M := fun A B f c s =>
  match c s with
  | (s', Ok a) => f a s'
  | (s', Raise e) => (s', Raise e)
  end.

Definition raise {A : Type} (e : exn) : M A := fun s => (s, Raise e).
Definition attr {A : Type} (f : SiteMonitor -> A) : M A := fun s => (s, Ok (f s)).
Definition assign (f : SiteMonitor -> SiteMonitor) : M unit := fun s => (f s, Ok tt).

(** [d[k]] on a dictionary attribute: KeyError when the key is missing. *)
Definition getitem {V : Type} (d : SiteMonitor -> gmap string V) (k : string) : M V :=
  fun s => match d s !! k with
           | Some v => (s, Ok v)
           | None => (s, Raise KeyError)
           end.

(** A value that must not be None for the operation applied to it. *)
Definition not_none {A : Type} (o : option A) : M A :=
  match o with
  | Some a => mret a
  | None => raise TypeError
  end.

(** A local variable that may never have been assigned. *)
Definition local {A : Type} (o : option A) : M A :=
  match o with
  | Some a => mret a
  | None => raise UnboundLocalError
  end.

(** ** The delay histogram *)

Definition key_eqb (a b : option Q) : bool :=
  match a, b with
  | Some x, Some y => Qeq_bool x y
  | None, None => true
  | _, _ => false
  end.

(** [tracker[k]], reading 0 for a key never seen (as the defaultdict does). *)
Fixpoint tracker_get (t : list (option Q * Z)) (k : option Q) : Z :=
  match t with
  | [] => 0
  | (k', n) :: t' => if key_eqb k' k then n else tracker_get t' k
  end.

(** [tracker[k] += 1] *)
Fixpoint tracker_incr (t : list (option Q * Z)) (k : option Q) : list (option Q * Z) :=
  match t with
  | [] => [(k, 1)]
  | (k', n) :: t' =>
      if key_eqb k' k then (k', n + 1) :: t' else (k', n) :: tracker_incr t' k
  end.

(** ** Arguments of the methods *)

(** The [response] argument of [track_request], by the type tests the method
    applies to it; [Unsupported] is a value of any other type. *)
Inductive Response : Type :=
| HttpResponse (elapsed_seconds : Q)   (* requests.models.Response *)
| Timedelta (total_seconds : Q)        (* datetime.timedelta *)
| Float (x : Q)
| Int (n : Z)
| Unsupported.

(** The local variable [elapsed] after the type tests: unassigned ([None])
    when no test matched. *)
Definition elapsed_of (response : Response) : option Q :=
  match response with
  | HttpResponse e => Some e
  | Timedelta e => Some e
  | Float x => Some x
  | Int n => Some (inject_Z n)
  | Unsupported => None
  end.

(** What a call hands back: with [handle_timer] the method sleeps and
    returns nothing, otherwise it returns the delay. *)
Inductive outcome : Type :=
| Slept (seconds : Q)
| Returned (delay : option Q).

(** [numpy.random.uniform(low, high)] with the underlying sample
    [u] of [random_sample()], [0 <= u < 1], made explicit. *)
Definition uniform (low high u : Q) : Q := (low + (high - low) * u)%Q.

(** The [categories] argument of the constructor. *)
Inductive Categories : Type :=
| CatNone
| CatStr (name : string)
| CatList (names : list string)
| CatDict (d : gmap string (list Q))
| CatOther.

Record Args : Type := mkArgs {
  a_categories : Categories;
  a_burn_in : Z;
  a_choke_point : Q;
  a_slow_down_thresh : Z;
  a_speed_up_thresh : Z;
  a_rand : option Q;
  a_start_delay : Q;
  a_delays : option (gmap string Q);
  a_handle_timer : bool;
  a_rolling_mean_length : Z
}.

(** The defaults of the constructor's signature. *)
Definition default_args : Args :=
  mkArgs CatNone 100 2%Q 20 20 None 0%Q None true 25.

(** [self.delays.update(...)]: the caller's value replaces the default at
    each of the five known keys it gives; other keys are dropped. *)
Definition update_delays (user : option (gmap string Q)) : Delays :=
  let get (k : string) (dflt : Q) : Q :=
    match user with
    | Some m => from_option id dflt (m !! k)
    | None => dflt
    end in
  mkDelays (get "burnin" 10%Q) (get "min" 0%Q) (get "max" 30%Q) (get "interval" 5%Q)
           (match user with Some m => m !! "current" | None => None end).

(** [SiteMonitor.__init__] *)
Definition init (a : Args) : result SiteMonitor :=
  let dflt := "main" in
  let resp : result (gmap string (list Q)) :=
    match a_categories a with
    | CatNone => Ok {[ dflt := [] ]}
    | CatStr c => Ok {[ c := [] ]}
    | CatList l => Ok (list_to_map (map (fun k => (k, [])) l))
    | CatDict d => Ok d
    | CatOther => Raise InvalidCategory
    end in
  match resp with
  | Raise e => Raise e
  | Ok r =>
      let ds := update_delays (a_delays a) in
      Ok (mkSiteMonitor dflt r [] ds
            ((fun _ => None) <$> r) ((fun _ => None) <$> r) ((fun _ => None) <$> r)
            ((fun _ => []) <$> r)
            (a_burn_in a) (a_choke_point a) (a_slow_down_thresh a) (a_speed_up_thresh a)
            0 0 (a_rand a)
            (py_min (py_max (a_start_delay a) (d_min ds)) (d_max ds))
            ((fun _ => false) <$> r)
            (a_handle_timer a) (a_rolling_mean_length a))
  end.

(** ** The methods *)

Section Methods.

Variable sqrt : Q -> Q.

(** [_burnin_process] *)
Definition _burnin_process (category : string) (elapsed : Q) : M (option Q) :=
  l ← getitem responses category;
  assign (fun s => set_responses (<[category := l ++ [elapsed]]> (responses s)) s);;
  attr (fun s => Some (d_burnin (delays s))).

(** [_halt_event] *)
Definition _halt_event (category : string) : M unit :=
  assign (fun s => set_current (Some (d_max (delays s))) s).

(** [_monitoring_process] *)
Definition _monitoring_process (category : string) (elapsed : Q) : M (option Q) :=
  l ← getitem responses category;
  assign (fun s => set_responses (<[category := l ++ [elapsed]]> (responses s)) s);;
  n ← attr rolling_mean_length;
  let rm := mean (slice_from_neg n (l ++ [elapsed])) in
  rms ← getitem rolling_mean category;
  assign (fun s => set_rolling_mean (<[category := rms ++ [rm]]> (rolling_mean s)) s);;
  ceiling ← getitem baseline_max category;
  ceiling ← not_none ceiling;
  (if fgt rm ceiling then
     assign (fun s => set_num_violations (num_violations s + 1) s);;
     nv ← attr num_violations;
     thresh ← attr slow_down_thresh;
     if thresh <=? nv then
       cur ← attr current;
       cur ← not_none cur;
       assign (fun s => set_current (Some (cur + d_interval (delays s))%Q) s);;
       cur ← attr current;
       cur ← not_none cur;
       hi ← attr (fun s => d_max (delays s));
       (if Qltb hi cur then _halt_event category else mret tt);;
       assign (set_num_violations 0);;
       assign (set_num_successes 0)
     else mret tt
   else
     cur ← attr current;
     cur ← not_none cur;
     lo ← attr (fun s => d_min (delays s));
     if Qltb lo cur then
       assign (fun s => set_num_successes (num_successes s + 1) s);;
       ns ← attr num_successes;
       thresh ← attr speed_up_thresh;
       if thresh <=? ns then
         assign (fun s => set_current (Some (cur - d_interval (delays s))%Q) s);;
         cur ← attr current;
         cur ← not_none cur;
         assign (fun s => set_current (Some (py_max cur (d_min (delays s)))) s);;
         assign (set_num_successes 0);;
         assign (set_num_violations 0)
       else mret tt
     else mret tt);;
  attr current.

(** [_end_burnin] *)
Definition _end_burnin (category : string) (elapsed : Q) : M (option Q) :=
  l ← getitem responses category;
  let m := mean l in
  let s := std sqrt l in
  assign (fun self => set_baseline_avg (<[category := Some m]> (baseline_avg self)) self);;
  assign (fun self => set_baseline_std (<[category := Some s]> (baseline_std self)) self);;
  assign (fun self => set_baseline_max
            (<[category := Some (fadd m (fscale (choke_point self) s))]> (baseline_max self)) self);;
  assign (fun self => set_current (Some (start_delay self)) self);;
  assign (fun self => set_burnin_over (<[category := true]> (burnin_over self)) self);;
  _monitoring_process category elapsed.

(** [if self.rand:] is taken for a number other than zero. *)
Definition truthy (r : option Q) : option Q :=
  match r with
  | Some x => if Qeq_bool x 0 then None else Some x
  | None => None
  end.

(** [track_request]; [u] is the random sample the jitter would draw. *)
Definition track_request (response : Response) (category : option string) (u : Q)
  : M outcome :=
  let elapsed := elapsed_of response in
  dflt ← attr default;
  let category := from_option id dflt category in
  rs ← attr responses;
  match rs !! category with
  | None => raise InvalidCategory
  | Some l =>
      b ← attr burn_in;
      let len := Z.of_nat (length l) in
      let last_branch : M (option Q) :=
        if b <=? len then e ← local elapsed; _monitoring_process category e
        else raise UnboundLocalError in
      delay ← (if len <? b then e ← local elapsed; _burnin_process category e
               else if len =? b then
                 over ← getitem burnin_over category;
                 if negb over then e ← local elapsed; _end_burnin category e
                 else last_branch
               else last_branch);
      assign (fun s => set_delay_tracker (tracker_incr (delay_tracker s) delay) s);;
      r ← attr rand;
      delay ← match truthy r with
              | Some r =>
                  d ← not_none delay;
                  mret (Some (uniform (py_max (d - r) 0) (d + r) u))
              | None => mret delay
              end;
      timer ← attr handle_timer;
      if (timer : bool) then
        d ← not_none delay;
        if Qltb d 0 then raise ValueError else mret (Slept d)
      else mret (Returned delay)
  end.

(** A call as data, and a session of calls; a caller that catches an
    exception goes on with the object as the failed call left it. *)
Record Call : Type := mkCall {
  c_response : Response;
  c_category : option string;
  c_sample : Q
}.

Definition step (s : SiteMonitor) (c : Call) : SiteMonitor :=
  fst (track_request (c_response c) (c_category c) (c_sample c) s).

Definition run (s : SiteMonitor) (calls : list Call) : SiteMonitor :=
  foldl step s calls.

(** ** Summaries used in the proofs

    [observe] is the object after [_monitoring_process] has recorded the
    sample and its rolling mean; [controller] is the effect of its
    violation/success block on the counters and the delay, for a current
    delay [d] that is a number; [baselined] is the object as [_end_burnin]
    leaves it before the monitoring; [finish] is the end of
    [track_request] (histogram, jitter, timer).  The lemmas
    [monitoring_spec] and [track_*] below show that the methods compute
    exactly these. *)

Definition resolve (s : SiteMonitor) (category : option string) : string :=
  from_option id (default s) category.

Definition rolling (n : Z) (l : list Q) (e : Q) : fnum :=
  mean (slice_from_neg n (l ++ [e])).

Definition observe (c : string) (l : list Q) (rms : list fnum) (e : Q)
    (s : SiteMonitor) : SiteMonitor :=
  set_rolling_mean (<[c := rms ++ [rolling (rolling_mean_length s) l e]]> (rolling_mean s))
    (set_responses (<[c := l ++ [e]]> (responses s)) s).

Definition raised (d step hi : Q) : Q :=
  if Qltb hi (d + step) then hi else (d + step)%Q.

Definition controller (violation : bool) (d : Q) (s : SiteMonitor) : SiteMonitor :=
  if violation then
    if slow_down_thresh s <=? num_violations s + 1 then
      set_num_successes 0 (set_num_violations 0
        (set_current (Some (raised d (d_interval (delays s)) (d_max (delays s)))) s))
    else set_num_violations (num_violations s + 1) s
  else if Qltb (d_min (delays s)) d then
    if speed_up_thresh s <=? num_successes s + 1 then
      set_num_violations 0 (set_num_successes 0
        (set_current (Some (py_max (d - d_interval (delays s)) (d_min (delays s)))) s))
    else set_num_successes (num_successes s + 1) s
  else s.

(** The object as [_end_burnin] leaves it before it calls
    [_monitoring_process]. *)
Definition baselined (c : string) (l : list Q) (s : SiteMonitor) : SiteMonitor :=
  set_burnin_over (<[c := true]> (burnin_over s))
    (set_current (Some (start_delay s))
       (set_baseline_max
          (<[c := Some (fadd (mean l) (fscale (choke_point s) (std sqrt l)))]> (baseline_max s))
          (set_baseline_std (<[c := Some (std sqrt l)]> (baseline_std s))
             (set_baseline_avg (<[c := Some (mean l)]> (baseline_avg s)) s)))).

(** Lines 72-79 of [track_request]: the histogram, the jitter and the
    timer, for a delay already computed. *)
Definition emitted (delay : option Q) (s : SiteMonitor) : SiteMonitor :=
  set_delay_tracker (tracker_incr (delay_tracker s) delay) s.

Definition finish (u : Q) (delay : option Q) : M outcome :=
  assign (fun s => set_delay_tracker (tracker_incr (delay_tracker s) delay) s);;
  r ← attr rand;
  delay ← match truthy r with
          | Some r =>
              d ← not_none delay;
              mret (Some (uniform (py_max (d - r) 0) (d + r) u))
          | None => mret delay
          end;
  timer ← attr handle_timer;
  if (timer : bool) then
    d ← not_none delay;
    if Qltb d 0 then raise ValueError else mret (Slept d)
  else mret (Returned delay).

(** The attributes set by the constructor and never assigned again. *)
Definition config (s : SiteMonitor) :=
  (default s, burn_in s, choke_point s, slow_down_thresh s, speed_up_thresh s,
   rand s, start_delay s, handle_timer s, rolling_mean_length s,
   (d_burnin (delays s), d_min (delays s), d_max (delays s), d_interval (delays s))).

(** The five ways a call to [track_request] can leave the object:
    unchanged (an undeclared category or an unassigned [elapsed]), one more
    burn-in sample, the end of a burn-in, a monitored sample, and a sample
    recorded for a category that has no baseline (the comparison raises). *)
Inductive transition (s : SiteMonitor) (c : string) : SiteMonitor -> Prop :=
| t_refused : transition s c s
| t_burnin (l : list Q) (e : Q) :
    responses s !! c = Some l ->
    Z.of_nat (length l) < burn_in s ->
    transition s c
      (emitted (Some (d_burnin (delays s)))
         (set_responses (<[c := l ++ [e]]> (responses s)) s))
| t_end_burnin (l : list Q) (rms : list fnum) (e : Q) (s' : SiteMonitor) :
    responses s !! c = Some l ->
    Z.of_nat (length l) = burn_in s ->
    burnin_over s !! c = Some false ->
    rolling_mean s !! c = Some rms ->
    s' = controller
           (fgt (rolling (rolling_mean_length s) l e)
                (fadd (mean l) (fscale (choke_point s) (std sqrt l))))
           (start_delay s) (observe c l rms e (baselined c l s)) ->
    transition s c (emitted (current s') s')
| t_monitoring (l : list Q) (rms : list fnum) (b : fnum) (d e : Q) (s' : SiteMonitor) :
    responses s !! c = Some l ->
    burn_in s <= Z.of_nat (length l) ->
    burnin_over s !! c = Some true ->
    rolling_mean s !! c = Some rms ->
    baseline_max s !! c = Some (Some b) ->
    current s = Some d ->
    s' = controller (fgt (rolling (rolling_mean_length s) l e) b) d (observe c l rms e s) ->
    transition s c (emitted (current s') s')
| t_no_baseline (l : list Q) (rms : list fnum) (e : Q) :
    responses s !! c = Some l ->
    burn_in s <= Z.of_nat (length l) ->
    burnin_over s !! c = Some false ->
    rolling_mean s !! c = Some rms ->
    baseline_max s !! c = Some None ->
    transition s c (observe c l rms e s).

(** The dictionaries share their keys; a category is either before the end
    of its burn-in, with no baseline, or after it, with the baseline of its
    first [burn_in] samples and a current delay that is a number. *)
Record wf (s : SiteMonitor) : Prop := mk_wf {
  wf_rolling : dom (rolling_mean s) = dom (responses s);
  wf_avg : dom (baseline_avg s) = dom (responses s);
  wf_std : dom (baseline_std s) = dom (responses s);
  wf_max : dom (baseline_max s) = dom (responses s);
  wf_over : dom (burnin_over s) = dom (responses s);
  wf_before : forall c, burnin_over s !! c = Some false ->
    baseline_avg s !! c = Some None /\ baseline_std s !! c = Some None /\
    baseline_max s !! c = Some None;
  wf_after : forall c, burnin_over s !! c = Some true ->
    exists l, responses s !! c = Some l /\ burn_in s < Z.of_nat (length l) /\
      let p := take (Z.to_nat (burn_in s)) l in
      baseline_avg s !! c = Some (Some (mean p)) /\
      baseline_std s !! c = Some (Some (std sqrt p)) /\
      baseline_max s !! c = Some (Some (fadd (mean p) (fscale (choke_point s) (std sqrt p)))) /\
      is_Some (current s);
  wf_counters : 0 <= num_violations s /\ 0 <= num_successes s
}.

(** The three baseline fields of a category, as the dictionaries hold them. *)
Definition baseline (s : SiteMonitor) (c : string) :=
  (baseline_avg s !! c, baseline_std s !! c, baseline_max s !! c).

(** [d] lies within the bounds of the delay dictionary. *)
Definition within_bounds (s : SiteMonitor) (d : Q) : Prop :=
  (d_min (delays s) <= d /\ d <= d_max (delays s))%Q.


(** The comparisons that reports [vs] for a category with history [l] will
    make: for each report in turn, whether its rolling mean (over the last
    [n] samples) is above the ceiling [b]. *)
Fixpoint signals (n : Z) (b : fnum) (l : list Q) (vs : list Q) : list bool :=
  match vs with
  | [] => []
  | v :: vs' => fgt (rolling n l v) b :: signals n b (l ++ [v]) vs'
  end.

(** Category [c] is past its burn-in: it has the history [l] of at least
    [burn_in] samples and the ceiling [b], and the current delay is [d]. *)
Record monitored (c : string) (s : SiteMonitor) (l : list Q) (b : fnum) (d : Q) : Prop :=
  mk_monitored {
    m_responses : responses s !! c = Some l;
    m_rolling : is_Some (rolling_mean s !! c);
    m_ceiling : baseline_max s !! c = Some (Some b);
    m_current : current s = Some d;
    m_over : burnin_over s !! c = Some true;
    m_past : burn_in s <= Z.of_nat (length l)
  }.

(** The call [k] reports the latency [v] for category [c], on an object
    whose default category is [dflt]. *)
Definition addressed (dflt c : string) (k : Call) (v : Q) : Prop :=
  from_option id dflt (c_category k) = c /\ elapsed_of (c_response k) = Some v.


(** ** Notions for the further properties *)




(** What a call for category [c] whose [elapsed] is [e] ([None] when
    unassigned) does to an object whose dictionaries agree, with the test
    that selects each case. *)
Inductive effect (s : SiteMonitor) (c : string) (e : option Q) : SiteMonitor -> Prop :=
| e_undeclared :
    responses s !! c = None -> effect s c e s
| e_unassigned (l : list Q) :
    responses s !! c = Some l -> e = None -> effect s c e s
| e_burnin (l : list Q) (v : Q) :
    responses s !! c = Some l -> e = Some v ->
    Z.of_nat (length l) < burn_in s ->
    effect s c e
      (emitted (Some (d_burnin (delays s)))
         (set_responses (<[c := l ++ [v]]> (responses s)) s))
| e_end_burnin (l : list Q) (rms : list fnum) (v : Q) (s' : SiteMonitor) :
    responses s !! c = Some l -> e = Some v ->
    Z.of_nat (length l) = burn_in s ->
    burnin_over s !! c = Some false ->
    rolling_mean s !! c = Some rms ->
    s' = controller
           (fgt (rolling (rolling_mean_length s) l v)
                (fadd (mean l) (fscale (choke_point s) (std sqrt l))))
           (start_delay s) (observe c l rms v (baselined c l s)) ->
    effect s c e (emitted (current s') s')
| e_monitoring (l : list Q) (rms : list fnum) (b : fnum) (d v : Q) (s' : SiteMonitor) :
    responses s !! c = Some l -> e = Some v ->
    burn_in s < Z.of_nat (length l) ->
    burnin_over s !! c = Some true ->
    rolling_mean s !! c = Some rms ->
    baseline_max s !! c = Some (Some b) ->
    current s = Some d ->
    s' = controller (fgt (rolling (rolling_mean_length s) l v) b) d (observe c l rms v s) ->
    effect s c e (emitted (current s') s')
| e_no_baseline (l : list Q) (rms : list fnum) (v : Q) :
    responses s !! c = Some l -> e = Some v ->
    burn_in s < Z.of_nat (length l) ->
    burnin_over s !! c = Some false ->
    rolling_mean s !! c = Some rms ->
    baseline_max s !! c = Some None ->
    effect s c e (observe c l rms v s).

(** A category still in its burn-in with at most [burn_in] samples has no
    rolling mean yet; a category past it has one rolling mean for each
    sample after the first [burn_in]. *)
Definition tidy (s : SiteMonitor) : Prop :=
  forall (c : string) (l : list Q) (rms : list fnum),
    responses s !! c = Some l -> rolling_mean s !! c = Some rms ->
    (burnin_over s !! c = Some false -> Z.of_nat (length l) <= burn_in s -> rms = []) /\
    (burnin_over s !! c = Some true ->
     0 <= burn_in s /\ Z.of_nat (length rms) + burn_in s = Z.of_nat (length l)).


(** Between calls each counter is below its threshold, or zero. *)
Definition counters_settled (s : SiteMonitor) : Prop :=
  0 <= num_violations s /\ 0 <= num_successes s /\
  (num_violations s = 0 \/ num_violations s < slow_down_thresh s) /\
  (num_successes s = 0 \/ num_successes s < speed_up_thresh s).

End Methods.

(** ** Example configurations *)

(** The scenario of the specification: [burn_in=5], [choke_point=2], both
    thresholds 2, step 5, delays between 0 and 20, [start_delay=0]; the
    delay is returned rather than slept. *)
Definition scenario_args : Args :=
  mkArgs CatNone 5 2%Q 2 2 None 0%Q
    (Some (<["interval" := 5%Q]> (<["min" := 0%Q]> {[ "max" := 20%Q ]}))) false 25.





(** The scenario with a rolling window of two samples. *)
Definition short_window_args : Args :=
  mkArgs CatNone 5 2%Q 2 2 None 0%Q
    (Some (<["interval" := 5%Q]> (<["min" := 0%Q]> {[ "max" := 20%Q ]}))) false 2.

(** Two categories with a burn-in of one sample and thresholds of one. *)
Definition two_category_args : Args :=
  mkArgs (CatList ["a"; "b"]) 1 2%Q 1 1 None 0%Q None false 25.

(** A category given with three samples at construction, for a burn-in
    of two. *)
Definition preseeded_args : Args :=
  mkArgs (CatDict {[ "a" := [1; 2; 3]%Q ]}) 2 2%Q 2 2 None 0%Q None false 25.

(** No burn-in at all, thresholds of one, and a start at 10 seconds. *)
Definition zero_burn_in_args : Args :=
  mkArgs CatNone 0 2%Q 1 1 None 10%Q None false 25.

(** A report of a number for the default category, and for a named one. *)
Definition report (x : Q) : Call := mkCall (Float x) None 0%Q.
Definition report_to (c : string) (x : Q) : Call := mkCall (Float x) (Some c) 0%Q.

(** * Reasoning about the methods *)

Section Facts.

Variable sqrt : Q -> Q.

(** ** Comparisons *)

Lemma Qltb_lt (x y : Q) : Qltb x y = true <-> (x < y)%Q.
Proof.
  unfold Qltb. rewrite negb_true_iff, <- not_true_iff_false, Qle_bool_iff.
  split; [apply Qnot_le_lt | apply Qlt_not_le].
Qed.

Lemma Qltb_ge (x y : Q) : Qltb x y = false <-> (y <= x)%Q.
Proof.
  unfold Qltb. rewrite negb_false_iff. apply Qle_bool_iff.
Qed.

Lemma py_max_spec (a b : Q) : (a <= py_max a b /\ b <= py_max a b)%Q.
Proof.
  unfold py_max. destruct (Qltb a b) eqn:E.
  - apply Qltb_lt in E. split; lra.
  - apply Qltb_ge in E. split; lra.
Qed.


Lemma py_min_spec (a b : Q) : (py_min a b <= a /\ py_min a b <= b)%Q.
Proof.
  unfold py_min. destruct (Qltb b a) eqn:E.
  - apply Qltb_lt in E. split; lra.
  - apply Qltb_ge in E. split; lra.
Qed.

Lemma py_min_cases (a b : Q) : py_min a b = a \/ py_min a b = b.
Proof. unfold py_min. destruct (Qltb b a); auto. Qed.

(** ** The methods compute their summaries *)

Ltac unfold_monad :=
  unfold mbind, M_bind, mret, M_ret, attr, assign, getitem, raise, not_none, local.

Lemma monitoring_spec (c : string) (e : Q) (s : SiteMonitor)
    (l : list Q) (rms : list fnum) (b : fnum) (d : Q) :
  responses s !! c = Some l ->
  rolling_mean s !! c = Some rms ->
  baseline_max s !! c = Some (Some b) ->
  current s = Some d ->
  let s' := controller (fgt (rolling (rolling_mean_length s) l e) b) d (observe c l rms e s) in
  _monitoring_process c e s = (s', Ok (current s')).
Proof.
  intros Hl Hr Hb Hd. unfold _monitoring_process, _halt_event, controller, raised, current in *.
  unfold_monad. simpl. rewrite Hl. simpl. rewrite Hr. simpl. rewrite Hb. simpl.
  fold (rolling (rolling_mean_length s) l e).
  destruct (fgt (rolling (rolling_mean_length s) l e) b); simpl.
  - destruct (slow_down_thresh s <=? num_violations s + 1); simpl; [| reflexivity].
    rewrite Hd. simpl.
    destruct (Qltb (d_max (delays s)) (d + d_interval (delays s))); reflexivity.
  - rewrite Hd. simpl. destruct (Qltb (d_min (delays s)) d); simpl; [| reflexivity].
    destruct (speed_up_thresh s <=? num_successes s + 1); reflexivity.
Qed.

Lemma finish_state (u : Q) (delay : option Q) (s : SiteMonitor) :
  fst (finish u delay s) = emitted delay s.
Proof.
  unfold finish, emitted. unfold_monad. simpl.
  destruct (truthy (rand s)) as [r|]; simpl.
  - destruct delay as [d|]; simpl; [| reflexivity].
    destruct (handle_timer s); simpl; [| reflexivity].
    destruct (Qltb _ 0); reflexivity.
  - destruct (handle_timer s); simpl; [| reflexivity].
    destruct delay as [d|]; simpl; [| reflexivity].
    destruct (Qltb d 0); reflexivity.
Qed.

Lemma track_invalid (resp : Response) (cat : option string) (u : Q) (s : SiteMonitor) :
  responses s !! resolve s cat = None ->
  track_request sqrt resp cat u s = (s, Raise InvalidCategory).
Proof.
  intros H. unfold track_request, resolve in *. unfold_monad. simpl. rewrite H. reflexivity.
Qed.

Lemma track_unbound (resp : Response) (cat : option string) (u : Q) (s : SiteMonitor)
    (l : list Q) :
  responses s !! resolve s cat = Some l ->
  is_Some (burnin_over s !! resolve s cat) ->
  elapsed_of resp = None ->
  track_request sqrt resp cat u s = (s, Raise UnboundLocalError).
Proof.
  intros H [o Ho] He. unfold track_request, resolve in *. unfold_monad. simpl.
  rewrite H, He. simpl.
  destruct (Z.of_nat (length l) <? burn_in s); simpl; [reflexivity|].
  destruct (Z.of_nat (length l) =? burn_in s); simpl.
  - rewrite Ho. destruct o; simpl; [| reflexivity].
    destruct (burn_in s <=? Z.of_nat (length l)); reflexivity.
  - destruct (burn_in s <=? Z.of_nat (length l)); reflexivity.
Qed.

Lemma track_burnin (resp : Response) (cat : option string) (u : Q) (s : SiteMonitor)
    (l : list Q) (e : Q) :
  let c := resolve s cat in
  responses s !! c = Some l ->
  Z.of_nat (length l) < burn_in s ->
  elapsed_of resp = Some e ->
  track_request sqrt resp cat u s =
  finish u (Some (d_burnin (delays s))) (set_responses (<[c := l ++ [e]]> (responses s)) s).
Proof.
  intros c H Hlen He. subst c. unfold track_request, finish, _burnin_process, resolve in *.
  unfold_monad. simpl. rewrite H, He. simpl.
  apply Z.ltb_lt in Hlen. rewrite Hlen. simpl. rewrite H. reflexivity.
Qed.

Lemma track_end_burnin (resp : Response) (cat : option string) (u : Q) (s : SiteMonitor)
    (l : list Q) (rms : list fnum) (e : Q) :
  let c := resolve s cat in
  responses s !! c = Some l ->
  Z.of_nat (length l) = burn_in s ->
  burnin_over s !! c = Some false ->
  rolling_mean s !! c = Some rms ->
  elapsed_of resp = Some e ->
  let b := fadd (mean l) (fscale (choke_point s) (std sqrt l)) in
  let s' := controller (fgt (rolling (rolling_mean_length s) l e) b) (start_delay s)
              (observe c l rms e (baselined sqrt c l s)) in
  track_request sqrt resp cat u s = finish u (current s') s'.
Proof.
  intros c H Hlen Ho Hr He b s'.
  pose proof (monitoring_spec c e (baselined sqrt c l s) l rms b (start_delay s)) as Hm.
  simpl in Hm. rewrite lookup_insert_eq in Hm.
  specialize (Hm H Hr eq_refl eq_refl).
  subst c. unfold track_request, finish, _end_burnin, resolve in *.
  unfold_monad. simpl. rewrite H, He. simpl.
  rewrite Hlen, Z.ltb_irrefl, Z.eqb_refl. simpl. rewrite Ho. simpl. rewrite H. simpl.
  unfold baselined in Hm. simpl in Hm.
  match goal with |- context [_monitoring_process ?c ?e ?st] =>
    change (_monitoring_process c e st) with
      (_monitoring_process c e (baselined sqrt (from_option id (default s) cat) l s)) end.
  unfold baselined. rewrite Hm. reflexivity.
Qed.

Lemma track_monitoring (resp : Response) (cat : option string) (u : Q) (s : SiteMonitor)
    (l : list Q) (rms : list fnum) (b : fnum) (d e : Q) :
  let c := resolve s cat in
  responses s !! c = Some l ->
  burn_in s <= Z.of_nat (length l) ->
  (Z.of_nat (length l) = burn_in s -> burnin_over s !! c = Some true) ->
  rolling_mean s !! c = Some rms ->
  baseline_max s !! c = Some (Some b) ->
  current s = Some d ->
  elapsed_of resp = Some e ->
  let s' := controller (fgt (rolling (rolling_mean_length s) l e) b) d (observe c l rms e s) in
  track_request sqrt resp cat u s = finish u (current s') s'.
Proof.
  intros c H Hlen Ho Hr Hb Hd He s'.
  pose proof (monitoring_spec c e s l rms b d H Hr Hb Hd) as Hm. simpl in Hm.
  subst c. unfold track_request, finish, resolve in *.
  unfold_monad. simpl. rewrite H, He. simpl.
  assert (Hnlt : (Z.of_nat (length l) <? burn_in s) = false) by (apply Z.ltb_ge; lia).
  assert (Hle : (burn_in s <=? Z.of_nat (length l)) = true) by (apply Z.leb_le; lia).
  rewrite Hnlt, Hle. simpl.
  destruct (Z.of_nat (length l) =? burn_in s) eqn:Eq; simpl.
  - apply Z.eqb_eq in Eq. rewrite (Ho Eq). simpl. rewrite Hm. reflexivity.
  - rewrite Hm. reflexivity.
Qed.

(** Without a baseline the comparison with None raises, after the sample
    and its rolling mean were recorded. *)
Lemma track_no_baseline (resp : Response) (cat : option string) (u : Q) (s : SiteMonitor)
    (l : list Q) (rms : list fnum) (e : Q) :
  let c := resolve s cat in
  responses s !! c = Some l ->
  burn_in s <= Z.of_nat (length l) ->
  (Z.of_nat (length l) = burn_in s -> burnin_over s !! c = Some true) ->
  rolling_mean s !! c = Some rms ->
  baseline_max s !! c = Some None ->
  elapsed_of resp = Some e ->
  track_request sqrt resp cat u s = (observe c l rms e s, Raise TypeError).
Proof.
  intros c H Hlen Ho Hr Hb He.
  subst c. unfold track_request, _monitoring_process, observe, rolling, resolve in *.
  unfold_monad. simpl. rewrite H, He. simpl.
  assert (Hnlt : (Z.of_nat (length l) <? burn_in s) = false) by (apply Z.ltb_ge; lia).
  assert (Hle : (burn_in s <=? Z.of_nat (length l)) = true) by (apply Z.leb_le; lia).
  rewrite Hnlt, Hle. simpl.
  destruct (Z.of_nat (length l) =? burn_in s) eqn:Eq; simpl.
  - apply Z.eqb_eq in Eq. rewrite (Ho Eq). simpl. rewrite H. simpl. rewrite Hr. simpl.
    rewrite Hb. reflexivity.
  - rewrite H. simpl. rewrite Hr. simpl. rewrite Hb. reflexivity.
Qed.

(** ** What a call cannot change *)

Lemma controller_config (v : bool) (d : Q) (s : SiteMonitor) :
  config (controller v d s) = config s.
Proof.
  unfold controller. repeat case_match; reflexivity.
Qed.

Lemma controller_tracker (v : bool) (d : Q) (s : SiteMonitor) :
  delay_tracker (controller v d s) = delay_tracker s.
Proof.
  unfold controller. repeat case_match; reflexivity.
Qed.

Lemma controller_responses (v : bool) (d : Q) (s : SiteMonitor) :
  responses (controller v d s) = responses s.
Proof. unfold controller. repeat case_match; reflexivity. Qed.

Lemma controller_rolling_mean (v : bool) (d : Q) (s : SiteMonitor) :
  rolling_mean (controller v d s) = rolling_mean s.
Proof. unfold controller. repeat case_match; reflexivity. Qed.

Lemma controller_baseline_avg (v : bool) (d : Q) (s : SiteMonitor) :
  baseline_avg (controller v d s) = baseline_avg s.
Proof. unfold controller. repeat case_match; reflexivity. Qed.

Lemma controller_baseline_std (v : bool) (d : Q) (s : SiteMonitor) :
  baseline_std (controller v d s) = baseline_std s.
Proof. unfold controller. repeat case_match; reflexivity. Qed.

Lemma controller_baseline_max (v : bool) (d : Q) (s : SiteMonitor) :
  baseline_max (controller v d s) = baseline_max s.
Proof. unfold controller. repeat case_match; reflexivity. Qed.

Lemma controller_burnin_over (v : bool) (d : Q) (s : SiteMonitor) :
  burnin_over (controller v d s) = burnin_over s.
Proof. unfold controller. repeat case_match; reflexivity. Qed.

Lemma controller_burn_in (v : bool) (d : Q) (s : SiteMonitor) :
  burn_in (controller v d s) = burn_in s.
Proof. unfold controller. repeat case_match; reflexivity. Qed.

Lemma controller_choke_point (v : bool) (d : Q) (s : SiteMonitor) :
  choke_point (controller v d s) = choke_point s.
Proof. unfold controller. repeat case_match; reflexivity. Qed.

Lemma controller_current_some (v : bool) (d : Q) (s : SiteMonitor) :
  is_Some (current s) -> is_Some (current (controller v d s)).
Proof. unfold controller. repeat case_match; simpl; eauto. Qed.

Lemma controller_counters (v : bool) (d : Q) (s : SiteMonitor) :
  0 <= num_violations s /\ 0 <= num_successes s ->
  0 <= num_violations (controller v d s) /\ 0 <= num_successes (controller v d s).
Proof. unfold controller. repeat case_match; simpl; lia. Qed.

Create Rewrite HintDb ctl.
#[local] Hint Rewrite controller_responses controller_rolling_mean controller_baseline_avg
  controller_baseline_std controller_baseline_max controller_burnin_over
  controller_burn_in controller_choke_point : ctl.

(** ** The transitions of an object whose dictionaries agree *)

Lemma same_dom_lookup {A B : Type} (m1 : gmap string A) (m2 : gmap string B) (c : string) :
  dom m1 = dom m2 -> is_Some (m2 !! c) -> is_Some (m1 !! c).
Proof.
  intros Hd H. apply elem_of_dom. rewrite Hd. apply elem_of_dom. exact H.
Qed.

Lemma step_transition (s : SiteMonitor) (k : Call) :
  wf sqrt s -> transition sqrt s (resolve s (c_category k)) (step sqrt s k).
Proof.
  intros W. unfold step. destruct k as [resp cat u]. simpl.
  set (c := resolve s cat).
  destruct (responses s !! c) as [l|] eqn:Hl.
  2:{ rewrite track_invalid by exact Hl. apply t_refused. }
  assert (Ho : is_Some (burnin_over s !! c))
    by (apply (same_dom_lookup _ (responses s)); [apply W | eauto]).
  assert (Hr : is_Some (rolling_mean s !! c))
    by (apply (same_dom_lookup _ (responses s)); [apply W | eauto]).
  assert (Hb : is_Some (baseline_max s !! c))
    by (apply (same_dom_lookup _ (responses s)); [apply W | eauto]).
  destruct (elapsed_of resp) as [e|] eqn:He.
  2:{ rewrite (track_unbound resp cat u s l) by assumption. apply t_refused. }
  destruct Ho as [o Ho], Hr as [rms Hr], Hb as [b Hb].
  destruct (Z.lt_ge_cases (Z.of_nat (length l)) (burn_in s)) as [Hlt | Hge].
  { rewrite (track_burnin resp cat u s l e) by assumption.
    rewrite (surjective_pairing (finish _ _ _)). simpl. rewrite finish_state.
    apply t_burnin; assumption. }
  destruct o.
  - destruct (wf_after sqrt s W c Ho) as (l' & Hl' & Hlen & _ & _ & Hb' & [d Hd]).
    rewrite Hl in Hl'. injection Hl' as <-. simpl in Hb'. fold c in Hb'. rewrite Hb in Hb'.
    injection Hb' as ->.
    rewrite (track_monitoring resp cat u s l rms _ d e Hl Hge (fun _ => Ho) Hr Hb Hd He).
    rewrite finish_state. eapply t_monitoring; eauto.
  - destruct (Z.eq_dec (Z.of_nat (length l)) (burn_in s)) as [Heq | Hne].
    + rewrite (track_end_burnin resp cat u s l rms e) by assumption.
      rewrite finish_state. eapply t_end_burnin; eauto.
    + destruct (wf_before sqrt s W c Ho) as (_ & _ & Hb'). fold c in Hb. rewrite Hb in Hb'.
      injection Hb' as ->.
      rewrite (track_no_baseline resp cat u s l rms e); try assumption; [| lia].
      simpl. apply t_no_baseline; assumption.
Qed.

Lemma dom_insert_present {A : Type} (m : gmap string A) (c : string) (v : A) :
  is_Some (m !! c) -> dom (<[c := v]> m) = dom m.
Proof.
  intros H. apply elem_of_dom in H. rewrite dom_insert_L.
  apply subseteq_union_1_L, singleton_subseteq_l, H.
Qed.

Lemma dom_insert_same {A B : Type} (m : gmap string A) (m' : gmap string B)
    (c : string) (v : A) :
  dom m = dom m' -> is_Some (m' !! c) -> dom (<[c := v]> m) = dom m'.
Proof.
  intros Hd H. rewrite dom_insert_present; [exact Hd |].
  apply (same_dom_lookup _ m'); assumption.
Qed.

Lemma take_burn_in_exact (b : Z) (l : list Q) (e : Q) :
  Z.of_nat (length l) = b -> take (Z.to_nat b) (l ++ [e]) = l.
Proof.
  intros <-. rewrite Nat2Z.id. apply take_app_length.
Qed.

Lemma take_burn_in_more (b : Z) (l : list Q) (e : Q) :
  b <= Z.of_nat (length l) -> take (Z.to_nat b) (l ++ [e]) = take (Z.to_nat b) l.
Proof.
  intros H. apply take_app_le. lia.
Qed.

Lemma wf_transition (s s' : SiteMonitor) (c : string) :
  wf sqrt s -> transition sqrt s c s' -> wf sqrt s'.
Proof.
  intros W T. destruct W as [Wr Wa Ws Wm Wo Wb Wf Wc].
  assert (Hsome : is_Some (responses s !! c) ->
            is_Some (rolling_mean s !! c) /\ is_Some (baseline_avg s !! c) /\
            is_Some (baseline_std s !! c) /\ is_Some (baseline_max s !! c) /\
            is_Some (burnin_over s !! c)).
  { intros H. repeat split; apply (same_dom_lookup _ (responses s)); assumption. }
  destruct T as [| l e Hl Hlen | l rms e s1 Hl Hlen Ho Hr -> | l rms b d e s1 Hl Hlen Ho Hr Hb Hd ->
                | l rms e Hl Hlen Ho Hr Hb];
    [constructor; assumption | ..];
    destruct Hsome as (Ir & Ia & Is & Im & Io); eauto;
    constructor; simpl; autorewrite with ctl; simpl;
    rewrite ?dom_insert_present by eauto; try assumption.
  - (* one more burn-in sample *)
    intros c' Hc'. destruct (decide (c' = c)) as [-> | Hne].
    + destruct (Wf c Hc') as (l' & Hl' & Hlen' & _). rewrite Hl in Hl'. injection Hl' as <-. lia.
    + destruct (Wf c' Hc') as (l' & Hl' & Hrest). exists l'.
      rewrite lookup_insert_ne by congruence. auto.
  - (* end of the burn-in: no category but [c] changes side *)
    intros c' Hc'. destruct (decide (c' = c)) as [-> | Hne].
    + rewrite lookup_insert_eq in Hc'. discriminate.
    + rewrite lookup_insert_ne in Hc' by congruence.
      rewrite !lookup_insert_ne by congruence. auto.
  - intros c' Hc'. destruct (decide (c' = c)) as [-> | Hne].
    + exists (l ++ [e]). rewrite !lookup_insert_eq, length_app. simpl.
      rewrite (take_burn_in_exact _ _ _ Hlen).
      repeat split; try reflexivity; [lia |].
      apply controller_current_some. simpl. eauto.
    + rewrite lookup_insert_ne in Hc' by congruence.
      destruct (Wf c' Hc') as (l' & Hl' & Hlen' & Ha & Hs & Hm & _). exists l'.
      rewrite !lookup_insert_ne by congruence.
      repeat split; try assumption.
      apply controller_current_some. simpl. eauto.
  - apply controller_counters. simpl. assumption.
  - (* a monitored sample *)
    intros c' Hc'. destruct (decide (c' = c)) as [-> | Hne].
    + destruct (Wf c Hc') as (l' & Hl' & Hlen' & Ha & Hs & Hm & Hcur).
      rewrite Hl in Hl'. injection Hl' as <-.
      exists (l ++ [e]). rewrite lookup_insert_eq, length_app. simpl.
      rewrite take_burn_in_more by lia.
      repeat split; try assumption; [lia |].
      apply controller_current_some. simpl. assumption.
    + destruct (Wf c' Hc') as (l' & Hl' & Hlen' & Ha & Hs & Hm & Hcur). exists l'.
      rewrite lookup_insert_ne by congruence.
      repeat split; try assumption.
      apply controller_current_some. simpl. assumption.
  - apply controller_counters. simpl. assumption.
  - (* a sample recorded without a baseline *)
    intros c' Hc'. destruct (decide (c' = c)) as [-> | Hne]; [congruence |].
    destruct (Wf c' Hc') as (l' & Hl' & Hrest). exists l'.
    rewrite lookup_insert_ne by congruence. auto.
Qed.

Lemma wf_step (s : SiteMonitor) (k : Call) : wf sqrt s -> wf sqrt (step sqrt s k).
Proof.
  intros W. eapply wf_transition; [exact W | apply step_transition; exact W].
Qed.

Lemma wf_run (calls : list Call) (s : SiteMonitor) : wf sqrt s -> wf sqrt (run sqrt s calls).
Proof.
  revert s. induction calls as [| k calls IH]; intros s W; simpl; [exact W |].
  apply IH, wf_step, W.
Qed.

Lemma wf_init (a : Args) (s : SiteMonitor) : init a = Ok s -> wf sqrt s.
Proof.
  unfold init. intros H.
  destruct (a_categories a) as [| c0 | names | d0 |]; try discriminate;
    injection H as <-; (constructor; simpl; [apply dom_fmap_L .. | | | lia]).
  all: intros c Hc; rewrite lookup_fmap in Hc; rewrite ?lookup_fmap.
  all: match type of Hc with context [?m !! ?k] => destruct (m !! k) end.
  all: simpl in *; auto; discriminate.
Qed.

Lemma transition_config (s s' : SiteMonitor) (c : string) :
  transition sqrt s c s' -> config s' = config s.
Proof.
  intros T. destruct T; subst; try reflexivity.
  all: match goal with |- config (emitted _ ?x) = config ?y => change (config x = config y) end.
  all: rewrite controller_config; reflexivity.
Qed.

Lemma transition_dom (s s' : SiteMonitor) (c : string) :
  transition sqrt s c s' -> dom (responses s') = dom (responses s).
Proof.
  intros T. destruct T; subst; simpl; autorewrite with ctl; simpl;
    rewrite ?dom_insert_present by eauto; reflexivity.
Qed.

Lemma run_config (calls : list Call) (s : SiteMonitor) :
  wf sqrt s -> config (run sqrt s calls) = config s.
Proof.
  revert s. induction calls as [| k calls IH]; intros s W; simpl; [reflexivity |].
  rewrite IH by (apply wf_step, W).
  eapply transition_config, step_transition, W.
Qed.

Lemma run_dom (calls : list Call) (s : SiteMonitor) :
  wf sqrt s -> dom (responses (run sqrt s calls)) = dom (responses s).
Proof.
  revert s. induction calls as [| k calls IH]; intros s W; simpl; [reflexivity |].
  rewrite IH by (apply wf_step, W).
  eapply transition_dom, step_transition, W.
Qed.

Lemma run_default (calls : list Call) (s : SiteMonitor) :
  wf sqrt s -> default (run sqrt s calls) = default s.
Proof.
  intros W. pose proof (run_config calls s W) as H. unfold config in H. congruence.
Qed.

Lemma run_declared (calls : list Call) (s : SiteMonitor) (c : string) :
  wf sqrt s ->
  (responses (run sqrt s calls) !! c = None <-> responses s !! c = None).
Proof.
  intros W. rewrite <- !not_elem_of_dom, run_dom by exact W. reflexivity.
Qed.

(** ** Baselines, once set, stay *)

Lemma transition_over (s s' : SiteMonitor) (c c' : string) :
  transition sqrt s c s' ->
  burnin_over s !! c' = Some true -> burnin_over s' !! c' = Some true.
Proof.
  intros T H. destruct T; subst; simpl; autorewrite with ctl; simpl; try assumption.
  destruct (decide (c' = c)) as [-> | Hne]; [apply lookup_insert_eq |].
  rewrite lookup_insert_ne by congruence. assumption.
Qed.

Lemma transition_baseline (s s' : SiteMonitor) (c c' : string) :
  transition sqrt s c s' ->
  burnin_over s !! c' = Some true -> baseline s' c' = baseline s c'.
Proof.
  intros T H. unfold baseline.
  destruct T; subst; simpl; autorewrite with ctl; simpl; try reflexivity.
  destruct (decide (c' = c)) as [-> | Hne]; [congruence |].
  rewrite !lookup_insert_ne by congruence. reflexivity.
Qed.

Lemma run_baseline (calls : list Call) (s : SiteMonitor) (c : string) :
  wf sqrt s ->
  burnin_over s !! c = Some true -> baseline (run sqrt s calls) c = baseline s c.
Proof.
  revert s. induction calls as [| k calls IH]; intros s W H; simpl; [reflexivity |].
  pose proof (step_transition s k W) as T.
  rewrite IH; [| apply wf_step, W | eapply transition_over; eauto].
  eapply transition_baseline; eauto.
Qed.

Lemma wf_over_cases (s : SiteMonitor) (c : string) (l : list Q) :
  wf sqrt s -> responses s !! c = Some l ->
  (burnin_over s !! c = Some false /\ baseline s c = (Some None, Some None, Some None)) \/
  (burnin_over s !! c = Some true /\ burn_in s < Z.of_nat (length l) /\ is_Some (current s)).
Proof.
  intros W Hl.
  assert (Ho : is_Some (burnin_over s !! c))
    by (apply (same_dom_lookup _ (responses s)); [apply W | eauto]).
  destruct Ho as [[|] Ho].
  - right. destruct (wf_after sqrt s W c Ho) as (l' & Hl' & Hlen & _ & _ & _ & Hcur).
    rewrite Hl in Hl'. injection Hl' as <-. auto.
  - left. destruct (wf_before sqrt s W c Ho) as (Ha & Hs & Hm).
    unfold baseline. rewrite Ha, Hs, Hm. auto.
Qed.

(** ** The delay stays within its bounds *)

Lemma raised_range (d step lo hi : Q) :
  (lo <= d)%Q -> (d <= hi)%Q -> (0 <= step)%Q ->
  (lo <= raised d step hi /\ raised d step hi <= hi)%Q.
Proof.
  intros H1 H2 H3. unfold raised. destruct (Qltb hi (d + step)) eqn:E.
  - split; lra.
  - apply Qltb_ge in E. split; lra.
Qed.


Lemma init_start_delay (a : Args) (s : SiteMonitor) :
  init a = Ok s ->
  start_delay s = py_min (py_max (a_start_delay a) (d_min (delays s))) (d_max (delays s)).
Proof.
  unfold init. intros H.
  destruct (a_categories a); try discriminate; injection H as <-; reflexivity.
Qed.

Lemma init_over (a : Args) (s : SiteMonitor) (c : string) :
  init a = Ok s -> burnin_over s !! c <> Some true.
Proof.
  unfold init. intros H.
  destruct (a_categories a); try discriminate; injection H as <-; simpl;
    rewrite lookup_fmap;
    match goal with |- context [?m !! c] => destruct (m !! c) end; discriminate.
Qed.

Lemma start_delay_range (a : Args) (s : SiteMonitor) :
  init a = Ok s -> (d_min (delays s) <= d_max (delays s))%Q ->
  within_bounds s (start_delay s).
Proof.
  intros H Hle. rewrite (init_start_delay a s H). unfold within_bounds.
  set (x := py_max (a_start_delay a) (d_min (delays s))).
  pose proof (py_max_spec (a_start_delay a) (d_min (delays s))) as [_ Hx]. fold x in Hx.
  pose proof (py_min_spec x (d_max (delays s))) as [_ Hhi].
  split; [| exact Hhi].
  destruct (py_min_cases x (d_max (delays s))) as [-> | ->]; assumption.
Qed.

Lemma within_bounds_config (s s' : SiteMonitor) (d : Q) :
  config s = config s' -> within_bounds s d -> within_bounds s' d.
Proof.
  unfold config, within_bounds. intros H. injection H as _ _ _ _ _ _ _ _ _ _ -> -> _. auto.
Qed.



(** ** The histogram and the jitter *)

Lemma key_eqb_sym (a b : option Q) : key_eqb a b = key_eqb b a.
Proof.
  destruct a as [x|], b as [y|]; simpl; try reflexivity.
  destruct (Qeq_bool x y) eqn:E1, (Qeq_bool y x) eqn:E2; try reflexivity.
  - apply Qeq_bool_iff in E1. symmetry in E1. apply Qeq_bool_iff in E1. congruence.
  - apply Qeq_bool_iff in E2. symmetry in E2. apply Qeq_bool_iff in E2. congruence.
Qed.

Lemma key_eqb_trans (a b c : option Q) :
  key_eqb a b = true -> key_eqb b c = true -> key_eqb a c = true.
Proof.
  destruct a as [x|], b as [y|], c as [z|]; simpl; try discriminate; try reflexivity.
  rewrite !Qeq_bool_iff. intros H1 H2. rewrite H1. exact H2.
Qed.

Lemma tracker_incr_get (t : list (option Q * Z)) (k k' : option Q) :
  key_eqb k k' = true ->
  tracker_get (tracker_incr t k) k' = tracker_get t k' + 1.
Proof.
  intros Hk. induction t as [| [k0 n] t IH]; simpl.
  - rewrite Hk. reflexivity.
  - destruct (key_eqb k0 k) eqn:E0; simpl.
    + rewrite (key_eqb_trans k0 k k' E0 Hk). reflexivity.
    + destruct (key_eqb k0 k') eqn:E1; [| exact IH].
      rewrite key_eqb_sym in Hk. rewrite (key_eqb_trans k0 k' k E1 Hk) in E0. discriminate.
Qed.




(** ** Means of a window *)













(** ** Runs of monitored reports *)

Lemma raised_min (d step hi : Q) : (raised d step hi == Qmin (d + step) hi)%Q.
Proof.
  unfold raised. destruct (Qltb hi (d + step)) eqn:E.
  - apply Qltb_lt in E. rewrite Q.min_r; [reflexivity | lra].
  - apply Qltb_ge in E. rewrite Q.min_l; [reflexivity | lra].
Qed.


Lemma Qmin_accumulate (d d1 step p hi x t : Q) :
  (0 <= step)%Q -> (0 <= p)%Q ->
  (d1 == Qmin (d + step) hi)%Q -> (x == Qmin (d1 + p) hi)%Q ->
  (t == d + (step + p))%Q ->
  (x == Qmin t hi)%Q.
Proof.
  intros Hs Hp H1 H2 Ht.
  destruct (Q.min_spec (d + step) hi) as [[? E1] | [? E1]];
  destruct (Q.min_spec (d1 + p) hi) as [[? E2] | [? E2]];
  destruct (Q.min_spec t hi) as [[? E3] | [? E3]]; lra.
Qed.


Lemma inject_Z_nonneg (z : Z) : 0 <= z -> (0 <= inject_Z z)%Q.
Proof.
  intros H. change 0%Q with (inject_Z 0). rewrite <- Zle_Qle. exact H.
Qed.

(** What the violation branch and the other branch of the controller do. *)
Lemma controller_violation (d : Q) (s : SiteMonitor) :
  let s' := controller true d s in
  (num_violations s + 1 < slow_down_thresh s ->
   current s' = current s /\ num_violations s' = num_violations s + 1 /\
   num_successes s' = num_successes s) /\
  (slow_down_thresh s <= num_violations s + 1 ->
   current s' = Some (raised d (d_interval (delays s)) (d_max (delays s))) /\
   num_violations s' = 0 /\ num_successes s' = 0).
Proof.
  unfold controller. destruct (Z.leb_spec (slow_down_thresh s) (num_violations s + 1));
    simpl; split; intros; try lia; auto.
Qed.


(** A monitored report leaves the category monitored. *)
Lemma monitored_observed (c : string) (s : SiteMonitor) (l : list Q) (rms : list fnum)
    (b : fnum) (d d' e : Q) (v : bool) (x : option Q) :
  monitored c s l b d ->
  current (controller v d (observe c l rms e s)) = Some d' ->
  monitored c (emitted x (controller v d (observe c l rms e s))) (l ++ [e]) b d'.
Proof.
  intros [Hl Hr Hb Hd Ho Hp] Hd'.
  constructor; simpl; autorewrite with ctl; simpl.
  - apply lookup_insert_eq.
  - rewrite lookup_insert_eq. eauto.
  - exact Hb.
  - exact Hd'.
  - exact Ho.
  - rewrite length_app. simpl. lia.
Qed.

Lemma step_monitored (c : string) (s : SiteMonitor) (l : list Q) (b : fnum) (d v : Q)
    (k : Call) :
  monitored c s l b d -> addressed (default s) c k v ->
  exists rms : list fnum,
    step sqrt s k =
    let s1 := controller (fgt (rolling (rolling_mean_length s) l v) b) d (observe c l rms v s) in
    emitted (current s1) s1.
Proof.
  intros [Hl [rms Hr] Hb Hd Ho Hp] [Hc He]. exists rms.
  unfold step. destruct k as [resp cat u]. simpl in *.
  change (from_option id (default s) cat) with (resolve s cat) in Hc. subst c.
  rewrite (track_monitoring resp cat u s l rms b d v Hl Hp (fun _ => Ho) Hr Hb Hd He).
  apply finish_state.
Qed.

Lemma config_fields (s s' : SiteMonitor) :
  config s' = config s ->
  default s' = default s /\ slow_down_thresh s' = slow_down_thresh s /\
  speed_up_thresh s' = speed_up_thresh s /\ rolling_mean_length s' = rolling_mean_length s /\
  d_min (delays s') = d_min (delays s) /\ d_max (delays s') = d_max (delays s) /\
  d_interval (delays s') = d_interval (delays s).
Proof.
  unfold config. intros H. injection H as -> _ _ -> -> _ _ _ -> _ -> -> ->. repeat split.
Qed.

Lemma emitted_num_violations (x : option Q) (s : SiteMonitor) :
  num_violations (emitted x s) = num_violations s.
Proof. reflexivity. Qed.

Lemma emitted_num_successes (x : option Q) (s : SiteMonitor) :
  num_successes (emitted x s) = num_successes s.
Proof. reflexivity. Qed.

Lemma violations_run (c : string) (b : fnum) (calls : list Call) (vs : list Q) :
  forall (s : SiteMonitor) (l : list Q) (d : Q),
  Forall2 (addressed (default s) c) calls vs ->
  monitored c s l b d ->
  Forall (fun x => x = true) (signals (rolling_mean_length s) b l vs) ->
  0 <= num_violations s < slow_down_thresh s ->
  (d <= d_max (delays s))%Q -> (0 <= d_interval (delays s))%Q ->
  let s' := run sqrt s calls in
  let q := (num_violations s + Z.of_nat (length vs)) / slow_down_thresh s in
  exists d' : Q,
    monitored c s' (l ++ vs) b d' /\ config s' = config s /\
    (d' == Qmin (d + inject_Z q * d_interval (delays s)) (d_max (delays s)))%Q /\
    num_violations s' = (num_violations s + Z.of_nat (length vs)) mod slow_down_thresh s.
Proof.
  revert calls. induction vs as [| v vs IH]; intros calls s l d F M S Hnv Hd Hstep.
  - inversion F; subst. simpl. exists d. rewrite app_nil_r, Z.add_0_r.
    rewrite Z.div_small, Z.mod_small by lia.
    split; [exact M |]. split; [reflexivity |]. split; [| reflexivity].
    change (inject_Z 0) with 0%Q.
    destruct (Q.min_spec (d + 0 * d_interval (delays s)) (d_max (delays s)))
      as [[? E] | [? E]]; lra.
  - inversion F as [| k ? calls' ? Hk F']; subst. simpl in S. inversion S as [| ? ? Hv S']; subst.
    destruct (step_monitored c s l b d v k M Hk) as [rms Hs1]. simpl in Hs1.
    rewrite Hv in Hs1.
    set (so := observe c l rms v s) in *.
    destruct (controller_violation d so) as [Hlow Hhigh]. cbv zeta in Hlow, Hhigh.
    change (num_violations so) with (num_violations s) in Hlow, Hhigh.
    change (num_successes so) with (num_successes s) in Hlow, Hhigh.
    change (slow_down_thresh so) with (slow_down_thresh s) in Hlow, Hhigh.
    change (delays so) with (delays s) in Hlow, Hhigh.
    change (current so) with (current s) in Hlow. subst so.
    assert (Hcfg1 : config (step sqrt s k) = config s).
    { rewrite Hs1. change (config (controller true d (observe c l rms v s)) = config s).
      rewrite controller_config. reflexivity. }
    destruct (config_fields _ _ Hcfg1) as (Hdf & HT & _ & HL & _ & Hhi & Hst).
    change (run sqrt s (k :: calls')) with (run sqrt (step sqrt s k) calls').
    rewrite <- Hdf in F'. rewrite <- HL in S'.
    replace (l ++ v :: vs) with ((l ++ [v]) ++ vs) by (rewrite <- app_assoc; reflexivity).
    replace (Z.of_nat (length (v :: vs))) with (1 + Z.of_nat (length vs))
      by (simpl length; lia).
    destruct (Z.lt_ge_cases (num_violations s + 1) (slow_down_thresh s)) as [Hlt | Hge].
    + destruct (Hlow Hlt) as (Hc1 & Hn1 & _).
      assert (Hnv1 : num_violations (step sqrt s k) = num_violations s + 1)
        by (rewrite Hs1; exact Hn1).
      assert (M1 : monitored c (step sqrt s k) (l ++ [v]) b d).
      { rewrite Hs1. apply monitored_observed; [exact M |].
        rewrite Hc1. apply M. }
      destruct (IH calls' (step sqrt s k) (l ++ [v]) d F' M1 S') as (d' & M' & Hc' & Hd' & Hn').
      * rewrite HT, Hnv1. lia.
      * rewrite Hhi. exact Hd.
      * rewrite Hst. exact Hstep.
      * exists d'. split; [exact M' |]. split; [congruence |].
        rewrite HT, Hhi, Hst, Hnv1 in *.
        rewrite Z.add_assoc. split; assumption.
    + assert (HeqT : num_violations s + 1 = slow_down_thresh s) by lia.
      destruct (Hhigh Hge) as (Hc1 & Hn1 & _).
      assert (Hnv1 : num_violations (step sqrt s k) = 0) by (rewrite Hs1; exact Hn1).
      assert (M1 : monitored c (step sqrt s k) (l ++ [v]) b
                     (raised d (d_interval (delays s)) (d_max (delays s)))).
      { rewrite Hs1. apply monitored_observed; [exact M |]. exact Hc1. }
      destruct (IH calls' (step sqrt s k) (l ++ [v]) _ F' M1 S') as (d' & M' & Hc' & Hd' & Hn').
      * rewrite HT, Hnv1. lia.
      * rewrite Hhi. apply raised_range with (lo := d); lra.
      * rewrite Hst. exact Hstep.
      * exists d'. split; [exact M' |]. split; [congruence |].
        rewrite HT, Hhi, Hst, Hnv1 in *.
        rewrite Z.add_0_l in Hd', Hn'.
        replace (num_violations s + (1 + Z.of_nat (length vs)))
          with (Z.of_nat (length vs) + 1 * slow_down_thresh s) by lia.
        rewrite Z.div_add, Z.mod_add by lia. split; [| exact Hn'].
        eapply Qmin_accumulate; [exact Hstep | | apply raised_min | exact Hd' |].
        -- apply Qmult_le_0_compat; [| exact Hstep].
           apply inject_Z_nonneg, Z.div_pos; lia.
        -- rewrite inject_Z_plus. change (inject_Z 1) with 1%Q. lra.
Qed.



(** ** The end of a burn-in, as a monitored report *)

Lemma fgt_ceiling_eq (x : fnum) (c c' : Q) :
  (c == c')%Q -> fgt x (Fin c) = fgt x (Fin c').
Proof.
  intros H. destruct x as [| q]; [reflexivity |]. simpl.
  destruct (Qltb c q) eqn:E1, (Qltb c' q) eqn:E2; try reflexivity.
  - apply Qltb_lt in E1. apply Qltb_ge in E2. lra.
  - apply Qltb_ge in E1. apply Qltb_lt in E2. lra.
Qed.

Lemma monitored_baselined (c : string) (s : SiteMonitor) (l : list Q) :
  responses s !! c = Some l ->
  is_Some (rolling_mean s !! c) ->
  Z.of_nat (length l) = burn_in s ->
  monitored c (baselined sqrt c l s) l
    (fadd (mean l) (fscale (choke_point s) (std sqrt l))) (start_delay s).
Proof.
  intros Hl Hr Hlen. constructor; simpl; try assumption; try reflexivity.
  - apply lookup_insert_eq.
  - apply lookup_insert_eq.
  - lia.
Qed.

Lemma step_end_burnin (c : string) (s : SiteMonitor) (l : list Q) (rms : list fnum)
    (k : Call) (v : Q) :
  responses s !! c = Some l ->
  Z.of_nat (length l) = burn_in s ->
  burnin_over s !! c = Some false ->
  rolling_mean s !! c = Some rms ->
  addressed (default s) c k v ->
  step sqrt s k =
  let b := fadd (mean l) (fscale (choke_point s) (std sqrt l)) in
  let s1 := controller (fgt (rolling (rolling_mean_length s) l v) b) (start_delay s)
              (observe c l rms v (baselined sqrt c l s)) in
  emitted (current s1) s1.
Proof.
  intros Hl Hlen Ho Hr [Hc He]. unfold step. destruct k as [resp cat u]. simpl in *.
  change (from_option id (default s) cat) with (resolve s cat) in Hc. subst c.
  rewrite (track_end_burnin resp cat u s l rms v Hl Hlen Ho Hr He).
  apply finish_state.
Qed.

Lemma baseline_emitted (x : option Q) (v : bool) (d : Q) (s : SiteMonitor) (c : string) :
  baseline (emitted x (controller v d s)) c = baseline s c.
Proof.
  unfold baseline.
  change (baseline_avg (emitted x (controller v d s))) with (baseline_avg (controller v d s)).
  change (baseline_std (emitted x (controller v d s))) with (baseline_std (controller v d s)).
  change (baseline_max (emitted x (controller v d s))) with (baseline_max (controller v d s)).
  rewrite controller_baseline_avg, controller_baseline_std, controller_baseline_max.
  reflexivity.
Qed.

(** * The claims *)

(** C5.  For an object built by the constructor and then taken through any
    sequence of calls, [track_request] with a category that was not
    declared at construction raises [InvalidCategory], whatever the
    response argument, and returns the object exactly as it was: no
    attribute changes. *)
Theorem undeclared_category_rejected
    (a : Args) (s0 : SiteMonitor) (calls : list Call)
    (resp : Response) (cat : option string) (u : Q) :
  init a = Ok s0 ->
  responses s0 !! resolve s0 cat = None ->
  let s := run sqrt s0 calls in
  track_request sqrt resp cat u s = (s, Raise InvalidCategory).
Proof.
  intros Hinit Hnone s. pose proof (wf_init a s0 Hinit) as W.
  apply track_invalid. unfold resolve, s. rewrite run_default by exact W.
  apply run_declared; assumption.
Qed.

(** C10 (amended).  A response of an unsupported type leaves [elapsed]
    unassigned.  When the category is declared the call then fails with
    the unbound-variable error, before any attribute is changed; when the
    category is not declared, [InvalidCategory] is raised first.  There is
    no other outcome. *)
Theorem unsupported_response_fails
    (a : Args) (s0 : SiteMonitor) (calls : list Call) (cat : option string) (u : Q) :
  init a = Ok s0 ->
  let s := run sqrt s0 calls in
  elapsed_of Unsupported = None /\
  (is_Some (responses s0 !! resolve s0 cat) ->
   track_request sqrt Unsupported cat u s = (s, Raise UnboundLocalError)) /\
  (responses s0 !! resolve s0 cat = None ->
   track_request sqrt Unsupported cat u s = (s, Raise InvalidCategory)).
Proof.
  intros Hinit s. pose proof (wf_init a s0 Hinit) as W.
  pose proof (wf_run calls s0 W) as Ws. fold s in Ws.
  assert (Hres : resolve s cat = resolve s0 cat)
    by (unfold resolve, s; rewrite run_default by exact W; reflexivity).
  split; [reflexivity | split].
  - intros Hsome.
    assert (Hs : is_Some (responses s !! resolve s cat)).
    { rewrite Hres. destruct (responses s !! resolve s0 cat) eqn:E; [eauto |].
      apply run_declared in E; [| exact W]. rewrite E in Hsome. destruct Hsome; discriminate. }
    destruct Hs as [l Hl]. apply (track_unbound _ _ _ _ l); [exact Hl | | reflexivity].
    apply (same_dom_lookup _ (responses s)); [apply Ws | eauto].
  - intros Hnone. apply track_invalid. rewrite Hres. apply run_declared; assumption.
Qed.


(** C2.  On a constructed object after any calls, for a category with
    history [l]: while [l] holds at most [burn_in] samples the three
    baseline fields are all None; when it holds exactly [burn_in], the next
    report for the category with a usable response sets the three together,
    to the mean of [l], its population standard deviation, and
    [mean + choke_point * std]; and once a field is set, no further call
    changes any of the three. *)
Theorem baseline_lifecycle
    (a : Args) (s0 : SiteMonitor) (calls : list Call) (c : string) (l : list Q) :
  init a = Ok s0 ->
  let s := run sqrt s0 calls in
  responses s !! c = Some l ->
  (Z.of_nat (length l) <= burn_in s ->
   baseline s c = (Some None, Some None, Some None)) /\
  (Z.of_nat (length l) = burn_in s ->
   forall (k : Call) (e : Q),
     resolve s (c_category k) = c -> elapsed_of (c_response k) = Some e ->
     baseline (step sqrt s k) c =
     (Some (Some (mean l)), Some (Some (std sqrt l)),
      Some (Some (fadd (mean l) (fscale (choke_point s) (std sqrt l)))))) /\
  (baseline s c <> (Some None, Some None, Some None) ->
   forall more : list Call, baseline (run sqrt s more) c = baseline s c).
Proof.
  intros Hinit s Hl. pose proof (wf_init a s0 Hinit) as W0.
  pose proof (wf_run calls s0 W0) as W. fold s in W.
  pose proof (wf_over_cases s c l W Hl) as Hcases.
  split; [| split].
  - intros Hlen. destruct Hcases as [[_ H] | (_ & H & _)]; [exact H | lia].
  - intros Hlen k e Hk He. destruct Hcases as [[Ho _] | (_ & H & _)]; [| lia].
    assert (Hr : is_Some (rolling_mean s !! c))
      by (apply (same_dom_lookup _ (responses s)); [apply W | eauto]).
    destruct Hr as [rms Hr]. unfold step. destruct k as [resp cat u]. simpl in *. subst c.
    rewrite (track_end_burnin resp cat u s l rms e) by assumption.
    rewrite finish_state. unfold baseline. simpl. autorewrite with ctl. simpl.
    rewrite !lookup_insert_eq. reflexivity.
  - intros Hset more. destruct Hcases as [[_ H] | (Ho & _)]; [contradiction |].
    apply run_baseline; assumption.
Qed.

(** C8.  A run of [_monitoring_process] (the method that handles every
    observation once the burn-in samples are in) on a category with a
    baseline [b], at a current delay [d], returns and moves the counters
    in exactly one of five ways: a violation below the slow-down threshold
    adds one to [num_violations] only; a violation reaching it resets both
    counters to zero; a non-violation adds one to [num_successes] only if
    [d > min], and resets both counters to zero when that reaches the
    speed-up threshold; a non-violation at [d <= min] changes neither.
    Hence never both counters grow in one observation. *)
Theorem counters_exclusive
    (c : string) (e : Q) (s : SiteMonitor)
    (l : list Q) (rms : list fnum) (b : fnum) (d : Q) :
  responses s !! c = Some l ->
  rolling_mean s !! c = Some rms ->
  baseline_max s !! c = Some (Some b) ->
  current s = Some d ->
  0 <= num_violations s -> 0 <= num_successes s ->
  exists (s' : SiteMonitor) (r : option Q),
    _monitoring_process c e s = (s', Ok r) /\
    let violation := fgt (rolling (rolling_mean_length s) l e) b in
    let nv := num_violations s in
    let ns := num_successes s in
    let nv' := num_violations s' in
    let ns' := num_successes s' in
    (violation = true -> nv + 1 < slow_down_thresh s -> nv' = nv + 1 /\ ns' = ns) /\
    (violation = true -> slow_down_thresh s <= nv + 1 -> nv' = 0 /\ ns' = 0) /\
    (violation = false -> (d_min (delays s) < d)%Q -> ns + 1 < speed_up_thresh s ->
     nv' = nv /\ ns' = ns + 1) /\
    (violation = false -> (d_min (delays s) < d)%Q -> speed_up_thresh s <= ns + 1 ->
     nv' = 0 /\ ns' = 0) /\
    (violation = false -> (d <= d_min (delays s))%Q -> nv' = nv /\ ns' = ns) /\
    ~ (nv' = nv + 1 /\ ns' = ns + 1) /\
    (ns' = ns + 1 -> (d_min (delays s) < d)%Q).
Proof.
  intros Hl Hr Hb Hd Hnv Hns.
  pose proof (monitoring_spec c e s l rms b d Hl Hr Hb Hd) as Hm. simpl in Hm.
  eexists _, _. split; [exact Hm |].
  unfold controller. simpl.
  destruct (fgt (rolling (rolling_mean_length s) l e) b); simpl.
  - destruct (Z.leb_spec (slow_down_thresh s) (num_violations s + 1)); simpl;
      repeat split; intros; try discriminate; try lia.
  - destruct (Qltb (d_min (delays s)) d) eqn:E; simpl.
    + apply Qltb_lt in E.
      destruct (Z.leb_spec (speed_up_thresh s) (num_successes s + 1)); simpl;
        repeat split; intros; try discriminate; try lia; try lra; try assumption.
    + apply Qltb_ge in E.
      repeat split; intros; try discriminate; try lia; try lra.
Qed.

(** C4 (amended).  Every category that finishes its burn-in, the first or
    a later one, sets the shared current delay to [start_delay] before its
    report is monitored: the object after the call does not depend on the
    delay held before, and unless that very report fires a threshold the
    delay afterwards is [start_delay], which the constructor has clamped
    into [[min, max]] when [min <= max]. *)
Theorem burnin_end_resets_delay
    (a : Args) (s0 : SiteMonitor) (calls : list Call) (k : Call) (e : Q) (l : list Q) :
  init a = Ok s0 ->
  let s := run sqrt s0 calls in
  let c := resolve s (c_category k) in
  responses s !! c = Some l ->
  Z.of_nat (length l) = burn_in s ->
  elapsed_of (c_response k) = Some e ->
  let s' := step sqrt s k in
  burnin_over s !! c = Some false /\
  burnin_over s' !! c = Some true /\
  (forall v : option Q, step sqrt (set_current v s) k = s') /\
  (num_violations s + 1 < slow_down_thresh s ->
   num_successes s + 1 < speed_up_thresh s ->
   current s' = Some (start_delay s)) /\
  start_delay s = start_delay s0 /\
  ((d_min (delays s0) <= d_max (delays s0))%Q -> within_bounds s (start_delay s)).
Proof.
  intros Hinit s c Hl Hlen He s'. pose proof (wf_init a s0 Hinit) as W0.
  pose proof (wf_run calls s0 W0) as W. fold s in W.
  pose proof (run_config calls s0 W0) as Hcfg. fold s in Hcfg.
  destruct (wf_over_cases s c l W Hl) as [[Ho _] | (_ & H & _)]; [| lia].
  assert (Hr : is_Some (rolling_mean s !! c))
    by (apply (same_dom_lookup _ (responses s)); [apply W | eauto]).
  destruct Hr as [rms Hr].
  assert (Hs' : s' = fst (track_request sqrt (c_response k) (c_category k) (c_sample k) s))
    by reflexivity.
  rewrite (track_end_burnin _ _ _ s l rms e) in Hs' by assumption.
  rewrite finish_state in Hs'.
  split; [exact Ho |]. split; [| split; [| split; [| split]]].
  - rewrite Hs'. simpl. autorewrite with ctl. simpl. apply lookup_insert_eq.
  - intros v. unfold step.
    rewrite (track_end_burnin _ _ _ (set_current v s) l rms e) by assumption.
    rewrite finish_state, Hs'. reflexivity.
  - intros Hv Hsucc. rewrite Hs'. unfold emitted, controller. simpl.
    apply Z.leb_gt in Hv, Hsucc. rewrite Hv, Hsucc.
    repeat case_match; reflexivity.
  - unfold config in Hcfg. congruence.
  - intros Hle. apply (within_bounds_config s0); [symmetry; exact Hcfg |].
    replace (start_delay s) with (start_delay s0) by (unfold config in Hcfg; congruence).
    apply (start_delay_range a); assumption.
Qed.




(** C6.  The scenario of the specification ([burn_in=5], [choke_point=2],
    both thresholds 2, step 5, delays in [[0, 20]], [start_delay=0]), for
    any square root that maps 0 to 0: after the latencies 1,1,1,1,1 there
    is no baseline and no current delay; the first report of 5 sets the
    baseline to mean 1, deviation 0, ceiling 1 and the delay to 0; the
    second report of 5 brings the delay to 5; two further reports of 5
    bring it to 10. *)
Theorem scenario_delays :
  (forall q : Q, (q == 0)%Q -> (sqrt q == 0)%Q) ->
  exists s0 : SiteMonitor,
    init scenario_args = Ok s0 /\
    let s5 := run sqrt s0 (map report [1; 1; 1; 1; 1]%Q) in
    let s6 := run sqrt s5 [report 5] in
    let s7 := run sqrt s6 [report 5] in
    let s9 := run sqrt s7 [report 5; report 5] in
    (current s5 = None /\ baseline s5 "main" = (Some None, Some None, Some None)) /\
    (exists m sd c : Q,
       baseline s6 "main" = (Some (Some (Fin m)), Some (Some (Fin sd)), Some (Some (Fin c))) /\
       (m == 1)%Q /\ (sd == 0)%Q /\ (c == 1)%Q) /\
    (exists d : Q, current s6 = Some d /\ (d == 0)%Q) /\
    (exists d : Q, current s7 = Some d /\ (d == 5)%Q) /\
    (exists d : Q, current s9 = Some d /\ (d == 10)%Q).
Proof.
  intros Hsqrt. eexists. split; [reflexivity |]. cbv zeta.
  match goal with |- context [run sqrt ?s0 (map report [1; 1; 1; 1; 1]%Q)] =>
    set (s5 := run sqrt s0 (map report [1; 1; 1; 1; 1]%Q));
    assert (W0 : wf sqrt s0) by (apply (wf_init scenario_args); reflexivity)
  end.
  assert (W5 : wf sqrt s5) by (apply wf_run, W0).
  set (l5 := [1; 1; 1; 1; 1]%Q).
  assert (Hl : responses s5 !! "main" = Some l5) by (vm_compute; reflexivity).
  assert (Ho : burnin_over s5 !! "main" = Some false) by (vm_compute; reflexivity).
  assert (Hr : rolling_mean s5 !! "main" = Some []) by (vm_compute; reflexivity).
  assert (Hcfg : config s5 = ("main", 5, 2%Q, 2, 2, None, 0%Q, false, 25, (10%Q, 0%Q, 20%Q, 5%Q)))
    by (vm_compute; reflexivity).
  assert (Hnv : num_violations s5 = 0) by (vm_compute; reflexivity).
  assert (Hcur : current s5 = None) by (vm_compute; reflexivity).
  assert (Hbase : baseline s5 "main" = (Some None, Some None, Some None))
    by (vm_compute; reflexivity).
  clearbody s5. clear W0.
  unfold config in Hcfg.
  injection Hcfg as Hdf Hbi Hch Hsl Hsp _ Hsd _ HL Hbu Hlo Hhi Hst.
  split; [split; assumption |].
  (* the ceiling is 1 *)
  set (var := (Qsum (map (fun x => (x - Qsum l5 / Qlen l5) * (x - Qsum l5 / Qlen l5)) l5)
               / Qlen l5)%Q).
  assert (Hvar : (sqrt var == 0)%Q) by (apply Hsqrt; vm_compute; reflexivity).
  set (c := (Qsum l5 / Qlen l5 + 2 * sqrt var)%Q).
  assert (Hc : (c == 1)%Q).
  { unfold c. rewrite Hvar. vm_compute. reflexivity. }
  assert (Hb : fadd (mean l5) (fscale (choke_point s5) (std sqrt l5)) = Fin c).
  { rewrite Hch. reflexivity. }
  (* the report that ends the burn-in *)
  assert (Hk : forall s, default s = "main" -> addressed (default s) "main" (report 5) 5%Q).
  { intros s ->. split; reflexivity. }
  pose proof (step_end_burnin "main" s5 l5 [] (report 5) 5%Q Hl
                ltac:(rewrite Hbi; reflexivity) Ho Hr (Hk s5 Hdf)) as Hs6.
  cbv zeta in Hs6. rewrite Hb, HL, Hsd in Hs6.
  rewrite (fgt_ceiling_eq _ c 1 Hc) in Hs6.
  change (fgt (rolling 25 l5 5) (Fin 1)) with true in Hs6.
  set (so := observe "main" l5 [] 5%Q (baselined sqrt "main" l5 s5)) in *.
  destruct (controller_violation (start_delay s5) so) as [Hlow _]. cbv zeta in Hlow.
  change (num_violations so) with (num_violations s5) in Hlow.
  change (slow_down_thresh so) with (slow_down_thresh s5) in Hlow.
  change (current so) with (Some (start_delay s5)) in Hlow.
  rewrite Hnv, Hsl, Hsd in Hlow. destruct (Hlow ltac:(lia)) as (Hc1 & Hn1 & _).
  assert (M6 : monitored "main" (step sqrt s5 (report 5)) (l5 ++ [5%Q]) (Fin c) 0%Q).
  { rewrite Hs6. subst so. rewrite <- Hb.
    apply monitored_observed.
    - pose proof (monitored_baselined "main" s5 l5 Hl ltac:(eauto)
                    ltac:(rewrite Hbi; reflexivity)) as Mb.
      rewrite Hsd in Mb. exact Mb.
    - exact Hc1. }
  assert (Hnv6 : num_violations (step sqrt s5 (report 5)) = 1)
    by (rewrite Hs6; exact Hn1).
  assert (Hcfg6 : config (step sqrt s5 (report 5)) = config s5).
  { eapply transition_config. apply step_transition. exact W5. }
  destruct (config_fields _ _ Hcfg6) as (Hdf6 & HT6 & _ & HL6 & _ & Hhi6 & Hst6).
  rewrite Hdf in Hdf6. rewrite Hsl in HT6. rewrite HL in HL6. rewrite Hhi in Hhi6.
  rewrite Hst in Hst6.
  change (run sqrt s5 [report 5]) with (step sqrt s5 (report 5)).
  set (s6 := step sqrt s5 (report 5)) in *.
  split.
  { exists (Qsum l5 / Qlen l5)%Q, (sqrt var), c.
    split; [| split; [vm_compute; reflexivity | split; [exact Hvar | exact Hc]]].
    rewrite Hs6, baseline_emitted. unfold baseline, so. simpl.
    rewrite !lookup_insert_eq. rewrite Hch. reflexivity. }
  split; [exists 0%Q; split; [apply M6 | reflexivity] |].
  assert (Hsig : forall vs, Forall (fun x => x = true) (signals 25 (Fin 1) (l5 ++ [5%Q]) vs) ->
                            Forall (fun x => x = true) (signals 25 (Fin c) (l5 ++ [5%Q]) vs)).
  { intros vs. generalize (l5 ++ [5%Q]). induction vs as [| v vs IH]; intros l H; simpl in *.
    - constructor.
    - inversion H; subst. constructor; [| apply IH; assumption].
      rewrite (fgt_ceiling_eq _ c 1 Hc). assumption. }
  split.
  - destruct (violations_run "main" (Fin c) [report 5] [5%Q] s6 (l5 ++ [5%Q]) 0%Q)
      as (d' & M' & _ & Hd' & _).
    + constructor; [apply Hk; exact Hdf6 | constructor].
    + exact M6.
    + rewrite HL6. apply Hsig. vm_compute. repeat constructor.
    + rewrite Hnv6, HT6. lia.
    + rewrite Hhi6. vm_compute. discriminate.
    + rewrite Hst6. vm_compute. discriminate.
    + exists d'. split; [apply M' |].
      rewrite Hd', Hnv6, HT6, Hhi6, Hst6. vm_compute. reflexivity.
  - change (run sqrt (run sqrt s6 [report 5]) [report 5; report 5])
      with (run sqrt s6 [report 5; report 5; report 5]).
    destruct (violations_run "main" (Fin c) [report 5; report 5; report 5]
                [5; 5; 5]%Q s6 (l5 ++ [5%Q]) 0%Q)
      as (d' & M' & _ & Hd' & _).
    + repeat (constructor; [apply Hk; exact Hdf6 |]). constructor.
    + exact M6.
    + rewrite HL6. apply Hsig. vm_compute. repeat constructor.
    + rewrite Hnv6, HT6. lia.
    + rewrite Hhi6. vm_compute. discriminate.
    + rewrite Hst6. vm_compute. discriminate.
    + exists d'. split; [apply M' |].
      rewrite Hd', Hnv6, HT6, Hhi6, Hst6. vm_compute. reflexivity.
Qed.

End Facts.

(** * Instances on concrete objects *)

(** A default object that has seen two burn-in samples. *)
Lemma undeclared_category_rejected_witness :
  exists s0 : SiteMonitor,
    init default_args = Ok s0 /\
    responses s0 !! resolve s0 (Some "images") = None /\
    let s := run sqrt_floor s0 [mkCall (Float 1) None 0%Q; mkCall (Int 2) None 0%Q] in
    track_request sqrt_floor (Float 3) (Some "images") 0%Q s = (s, Raise InvalidCategory).
Proof.
  eexists. split; [reflexivity |]. split; [reflexivity |].
  apply (undeclared_category_rejected sqrt_floor default_args); reflexivity.
Defined.

(** C10, as stated, fails: with an undeclared category the unsupported
    response is answered by [InvalidCategory], not by the unbound-variable
    error. *)
Lemma unsupported_response_counterexample :
  exists s0 : SiteMonitor,
    init default_args = Ok s0 /\
    snd (track_request sqrt_floor Unsupported (Some "images") 0%Q s0) = Raise InvalidCategory /\
    snd (track_request sqrt_floor Unsupported (Some "images") 0%Q s0) <> Raise UnboundLocalError.
Proof.
  eexists. split; [reflexivity |]. split; [reflexivity | discriminate].
Qed.

Lemma unsupported_response_fails_witness :
  exists s0 : SiteMonitor,
    init default_args = Ok s0 /\
    let s := run sqrt_floor s0 [mkCall (Float 1) None 0%Q] in
    elapsed_of Unsupported = None /\
    (is_Some (responses s0 !! resolve s0 None) ->
     track_request sqrt_floor Unsupported None 0%Q s = (s, Raise UnboundLocalError)) /\
    (responses s0 !! resolve s0 None = None ->
     track_request sqrt_floor Unsupported None 0%Q s = (s, Raise InvalidCategory)).
Proof.
  eexists. split; [reflexivity |].
  apply (unsupported_response_fails sqrt_floor default_args). reflexivity.
Defined.



Lemma baseline_lifecycle_witness :
  exists s0 : SiteMonitor,
    init scenario_args = Ok s0 /\
    let s := run sqrt_floor s0 (map report [1; 1; 1; 1; 1]%Q) in
    responses s !! "main" = Some [1; 1; 1; 1; 1]%Q /\
    baseline s "main" = (Some None, Some None, Some None) /\
    baseline (step sqrt_floor s (report 5)) "main" =
      (Some (Some (mean [1; 1; 1; 1; 1]%Q)), Some (Some (std sqrt_floor [1; 1; 1; 1; 1]%Q)),
       Some (Some (fadd (mean [1; 1; 1; 1; 1]%Q)
                     (fscale (choke_point s) (std sqrt_floor [1; 1; 1; 1; 1]%Q))))).
Proof.
  eexists. split; [reflexivity |]. split; [reflexivity |].
  destruct (baseline_lifecycle sqrt_floor scenario_args _ (map report [1; 1; 1; 1; 1]%Q)
              "main" [1; 1; 1; 1; 1]%Q eq_refl eq_refl) as (H1 & H2 & _).
  split.
  - apply H1. vm_compute. discriminate.
  - apply (H2 eq_refl (report 5) 5%Q); reflexivity.
Defined.

(** The second violation in the scenario reaches the threshold 2 and
    resets both counters. *)
Lemma counters_exclusive_witness :
  exists s0 : SiteMonitor,
    init scenario_args = Ok s0 /\
    let s := run sqrt_floor s0 (map report [1; 1; 1; 1; 1; 5]%Q) in
    exists (l : list Q) (rms : list fnum) (b : fnum) (d : Q),
      responses s !! "main" = Some l /\
      rolling_mean s !! "main" = Some rms /\
      baseline_max s !! "main" = Some (Some b) /\
      current s = Some d /\
      0 <= num_violations s /\ 0 <= num_successes s /\
      exists (s' : SiteMonitor) (r : option Q),
        _monitoring_process "main" 5%Q s = (s', Ok r) /\
        num_violations s' = 0 /\ num_successes s' = 0.
Proof.
  eexists. split; [reflexivity |]. cbv zeta.
  eexists _, _, _, _.
  split; [vm_compute; reflexivity |]. split; [vm_compute; reflexivity |].
  split; [vm_compute; reflexivity |]. split; [vm_compute; reflexivity |].
  split; [vm_compute; discriminate |]. split; [vm_compute; discriminate |].
  match goal with |- exists s' r, _monitoring_process ?c ?e ?s = _ /\ _ =>
    destruct (counters_exclusive c e s _ _ _ _
                ltac:(vm_compute; reflexivity) ltac:(vm_compute; reflexivity)
                ltac:(vm_compute; reflexivity) ltac:(vm_compute; reflexivity)
                ltac:(vm_compute; discriminate) ltac:(vm_compute; discriminate))
      as (s' & r & Hrun & _ & Hreset & _)
  end.
  exists s', r. split; [exact Hrun |].
  apply Hreset; [vm_compute; reflexivity | vm_compute; discriminate].
Defined.

(** C4, as stated, fails: category "a" has finished its burn-in and a
    violation has raised the delay to 5; when "b" finishes its burn-in the
    delay is set back to [start_delay = 0]. *)
Lemma later_burnin_counterexample :
  exists s0 : SiteMonitor,
    init two_category_args = Ok s0 /\
    let s := run sqrt_floor s0
               [report_to "a" 1; report_to "a" 1; report_to "a" 100; report_to "b" 1] in
    let s' := step sqrt_floor s (report_to "b" 1) in
    burnin_over s !! "a" = Some true /\ burnin_over s !! "b" = Some false /\
    current s = Some 5%Q /\
    burnin_over s' !! "b" = Some true /\ current s' = Some 0%Q /\
    current s' <> current s.
Proof.
  eexists. split; [reflexivity |]. cbv zeta.
  repeat split; try (vm_compute; reflexivity). vm_compute. discriminate.
Qed.

Lemma burnin_end_resets_delay_witness :
  exists s0 : SiteMonitor,
    init two_category_args = Ok s0 /\
    let calls := [report_to "a" 1; report_to "a" 1; report_to "a" 100; report_to "b" 1] in
    let k := report_to "b" 1 in
    let s := run sqrt_floor s0 calls in
    responses s !! "b" = Some [1%Q] /\
    Z.of_nat (length [1%Q]) = burn_in s /\
    elapsed_of (c_response k) = Some 1%Q /\
    forall v : option Q, step sqrt_floor (set_current v s) k = step sqrt_floor s k.
Proof.
  eexists. split; [reflexivity |]. cbv zeta.
  split; [vm_compute; reflexivity |]. split; [reflexivity |]. split; [reflexivity |].
  apply (burnin_end_resets_delay sqrt_floor two_category_args _
           [report_to "a" 1; report_to "a" 1; report_to "a" 100; report_to "b" 1]
           (report_to "b" 1) 1%Q [1%Q] eq_refl).
  - vm_compute; reflexivity.
  - reflexivity.
  - reflexivity.
Defined.






Lemma sqrt_floor_zero (q : Q) : (q == 0)%Q -> (sqrt_floor q == 0)%Q.
Proof.
  destruct q as [n d]. unfold Qeq, sqrt_floor. simpl. intros H.
  replace n with 0 by lia. reflexivity.
Qed.

(** The scenario with the computable square root. *)
Lemma scenario_delays_witness :
  (forall q : Q, (q == 0)%Q -> (sqrt_floor q == 0)%Q) /\
  exists s0 : SiteMonitor,
    init scenario_args = Ok s0 /\
    let s5 := run sqrt_floor s0 (map report [1; 1; 1; 1; 1]%Q) in
    let s6 := run sqrt_floor s5 [report 5] in
    let s7 := run sqrt_floor s6 [report 5] in
    let s9 := run sqrt_floor s7 [report 5; report 5] in
    (current s5 = None /\ baseline s5 "main" = (Some None, Some None, Some None)) /\
    (exists m sd c : Q,
       baseline s6 "main" = (Some (Some (Fin m)), Some (Some (Fin sd)), Some (Some (Fin c))) /\
       (m == 1)%Q /\ (sd == 0)%Q /\ (c == 1)%Q) /\
    (exists d : Q, current s6 = Some d /\ (d == 0)%Q) /\
    (exists d : Q, current s7 = Some d /\ (d == 5)%Q) /\
    (exists d : Q, current s9 = Some d /\ (d == 10)%Q).
Proof.
  split; [exact sqrt_floor_zero |].
  apply (scenario_delays sqrt_floor). exact sqrt_floor_zero.
Defined.

(** * Further properties of the class *)

Create Rewrite HintDb tables.
#[local] Hint Rewrite controller_responses controller_rolling_mean controller_baseline_avg
  controller_baseline_std controller_baseline_max controller_burnin_over
  controller_burn_in controller_choke_point : tables.

Ltac unfold_steps :=
  unfold mbind, M_bind, mret, M_ret, attr, assign, getitem, raise, not_none, local.

Section More.
Variable sqrt : Q -> Q.

Lemma step_effect (s : SiteMonitor) (k : Call) :
  wf sqrt s ->
  effect sqrt s (resolve s (c_category k)) (elapsed_of (c_response k)) (step sqrt s k).
Proof.
  intros W. unfold step. destruct k as [resp cat u]. simpl.
  set (c := resolve s cat).
  destruct (responses s !! c) as [l|] eqn:Hl.
  2:{ rewrite (track_invalid sqrt) by exact Hl. apply e_undeclared. exact Hl. }
  assert (Ho : is_Some (burnin_over s !! c))
    by (apply (same_dom_lookup _ (responses s)); [apply W | eauto]).
  assert (Hr : is_Some (rolling_mean s !! c))
    by (apply (same_dom_lookup _ (responses s)); [apply W | eauto]).
  assert (Hb : is_Some (baseline_max s !! c))
    by (apply (same_dom_lookup _ (responses s)); [apply W | eauto]).
  destruct (elapsed_of resp) as [e|] eqn:He.
  2:{ rewrite (track_unbound sqrt resp cat u s l) by assumption.
      eapply e_unassigned; eauto. }
  destruct Ho as [o Ho], Hr as [rms Hr], Hb as [b Hb].
  destruct (Z.lt_ge_cases (Z.of_nat (length l)) (burn_in s)) as [Hlt | Hge].
  { rewrite (track_burnin sqrt resp cat u s l e) by assumption.
    rewrite (surjective_pairing (finish _ _ _)). simpl. rewrite finish_state.
    apply e_burnin; auto. }
  destruct o.
  - destruct (wf_after sqrt s W c Ho) as (l' & Hl' & Hlen & _ & _ & Hb' & [d Hd]).
    rewrite Hl in Hl'. injection Hl' as <-. simpl in Hb'. fold c in Hb'.
    rewrite (track_monitoring sqrt resp cat u s l rms _ d e Hl Hge (fun _ => Ho) Hr Hb' Hd He).
    rewrite finish_state. eapply e_monitoring; eauto.
  - destruct (Z.eq_dec (Z.of_nat (length l)) (burn_in s)) as [Heq | Hne].
    + rewrite (track_end_burnin sqrt resp cat u s l rms e) by assumption.
      rewrite finish_state. eapply e_end_burnin; eauto.
    + destruct (wf_before sqrt s W c Ho) as (_ & _ & Hb'). fold c in Hb. rewrite Hb in Hb'.
      injection Hb' as ->.
      rewrite (track_no_baseline sqrt resp cat u s l rms e); try assumption; [| lia].
      simpl. apply e_no_baseline; auto. lia.
Qed.

Lemma effect_config (s s' : SiteMonitor) (c : string) (e : option Q) :
  effect sqrt s c e s' -> config s' = config s.
Proof.
  intros T. destruct T; subst; try reflexivity.
  all: match goal with |- config (emitted _ ?x) = config ?y => change (config x = config y) end.
  all: rewrite controller_config; reflexivity.
Qed.

Lemma effect_other (s s' : SiteMonitor) (c c' : string) (e : option Q) :
  effect sqrt s c e s' -> c' <> c ->
  responses s' !! c' = responses s !! c' /\
  rolling_mean s' !! c' = rolling_mean s !! c' /\
  baseline s' c' = baseline s c' /\
  burnin_over s' !! c' = burnin_over s !! c'.
Proof.
  intros T Hne. unfold baseline.
  destruct T; subst; simpl; autorewrite with tables; simpl;
    rewrite ?lookup_insert_ne by congruence; auto.
Qed.

Lemma effect_append (s s' : SiteMonitor) (c c' : string) (e : option Q)
    (l : list Q) (rms : list fnum) :
  effect sqrt s c e s' ->
  responses s !! c' = Some l -> rolling_mean s !! c' = Some rms ->
  exists (t : list Q) (t' : list fnum),
    responses s' !! c' = Some (l ++ t) /\ rolling_mean s' !! c' = Some (rms ++ t') /\
    (length t <= 1)%nat /\ (length t' <= length t)%nat.
Proof.
  intros T Hl Hr.
  destruct (decide (c' = c)) as [-> | Hne].
  - destruct T; subst; simpl; autorewrite with tables; simpl;
      rewrite ?lookup_insert_eq;
      try (exists [], []; rewrite !app_nil_r; simpl; auto; fail).
    + exists [v], []. rewrite app_nil_r. simpl. split; [congruence | auto].
    + exists [v], [rolling (rolling_mean_length s) l0 v]. simpl.
      split; [congruence | split; [congruence | auto]].
    + exists [v], [rolling (rolling_mean_length s) l0 v]. simpl.
      split; [congruence | split; [congruence | auto]].
    + exists [v], [rolling (rolling_mean_length s) l0 v]. simpl.
      split; [congruence | split; [congruence | auto]].
  - destruct (effect_other s s' c c' e T Hne) as (H1 & H2 & _).
    exists [], []. rewrite !app_nil_r, H1, H2. simpl. auto.
Qed.

Lemma reached (a : Args) (s0 : SiteMonitor) (calls : list Call) :
  init a = Ok s0 -> wf sqrt (run sqrt s0 calls).
Proof.
  intros H. apply (wf_run sqrt), (wf_init sqrt a), H.
Qed.

Lemma run_app (s : SiteMonitor) (xs ys : list Call) :
  run sqrt s (xs ++ ys) = run sqrt (run sqrt s xs) ys.
Proof. unfold run. apply foldl_app. Qed.


Lemma run_append (more : list Call) (s : SiteMonitor) (c : string)
    (l : list Q) (rms : list fnum) :
  wf sqrt s ->
  responses s !! c = Some l -> rolling_mean s !! c = Some rms ->
  exists (t : list Q) (t' : list fnum),
    responses (run sqrt s more) !! c = Some (l ++ t) /\
    rolling_mean (run sqrt s more) !! c = Some (rms ++ t') /\
    (length t <= length more)%nat /\ (length t' <= length t)%nat.
Proof.
  revert s l rms. induction more as [| k more IH]; intros s l rms W Hl Hr; simpl.
  - exists [], []. rewrite !app_nil_r. simpl. auto.
  - destruct (effect_append s _ _ c _ l rms (step_effect s k W) Hl Hr)
      as (t1 & t1' & Hl1 & Hr1 & Hn1 & Hn1').
    destruct (IH (step sqrt s k) _ _ (wf_step sqrt s k W) Hl1 Hr1)
      as (t2 & t2' & Hl2 & Hr2 & Hn2 & Hn2').
    exists (t1 ++ t2), (t1' ++ t2'). rewrite !app_assoc, !length_app.
    repeat split; try assumption; lia.
Qed.

(** X6.  Histories only grow, at their end and by at most one sample per
    call: after any further calls the history of a category is its earlier
    history followed by the new samples, and likewise its rolling means,
    of which there are never more new ones than new samples. *)
Theorem history_append_only
    (a : Args) (s0 : SiteMonitor) (calls more : list Call) (c : string) (l : list Q) :
  init a = Ok s0 ->
  let s := run sqrt s0 calls in
  responses s !! c = Some l ->
  exists (rms : list fnum) (t : list Q) (t' : list fnum),
    rolling_mean s !! c = Some rms /\
    responses (run sqrt s more) !! c = Some (l ++ t) /\
    rolling_mean (run sqrt s more) !! c = Some (rms ++ t') /\
    (length t <= length more)%nat /\ (length t' <= length t)%nat.
Proof.
  intros Hinit s Hl. pose proof (reached a s0 calls Hinit) as W. fold s in W.
  assert (Hr : is_Some (rolling_mean s !! c))
    by (apply (same_dom_lookup _ (responses s)); [apply W | eauto]).
  destruct Hr as [rms Hr]. exists rms.
  destruct (run_append more s c l rms W Hl Hr) as (t & t' & H).
  exists t, t'. split; [exact Hr | exact H].
Qed.

Lemma run_over (more : list Call) (s : SiteMonitor) (c : string) :
  wf sqrt s ->
  burnin_over s !! c = Some true -> burnin_over (run sqrt s more) !! c = Some true.
Proof.
  revert s. induction more as [| k more IH]; intros s W H; simpl; [exact H |].
  apply IH; [apply wf_step, W |].
  eapply transition_over; [apply step_transition, W | exact H].
Qed.

(** X7.  The burn-in flag of a category is True exactly when its baseline
    ceiling is set, and once True it stays True under any further calls:
    a category never returns to its burn-in. *)
Theorem burnin_flag
    (a : Args) (s0 : SiteMonitor) (calls more : list Call) (c : string) :
  init a = Ok s0 ->
  let s := run sqrt s0 calls in
  (burnin_over s !! c = Some true <-> exists b, baseline_max s !! c = Some (Some b)) /\
  (burnin_over s !! c = Some true -> burnin_over (run sqrt s more) !! c = Some true).
Proof.
  intros Hinit s. pose proof (reached a s0 calls Hinit) as W. fold s in W.
  split; [split |].
  - intros Ho. destruct (wf_after sqrt s W c Ho) as (l & _ & _ & _ & _ & Hb & _).
    eexists. exact Hb.
  - intros [b Hb].
    assert (Ho : is_Some (burnin_over s !! c)).
    { apply (same_dom_lookup _ (baseline_max s)); [| eauto].
      rewrite (wf_over sqrt s W), (wf_max sqrt s W). reflexivity. }
    destruct Ho as [[|] Ho]; [exact Ho |].
    destruct (wf_before sqrt s W c Ho) as (_ & _ & Hn). congruence.
  - apply run_over, W.
Qed.

(** ** Lengths of the histories *)

Lemma init_rolling (a : Args) (s : SiteMonitor) (c : string) (rms : list fnum) :
  init a = Ok s -> rolling_mean s !! c = Some rms -> rms = [].
Proof.
  unfold init. intros H.
  destruct (a_categories a); try discriminate; injection H as <-; simpl;
    rewrite lookup_fmap;
    match goal with |- context [?m !! c] => destruct (m !! c) end; simpl; congruence.
Qed.

Lemma effect_tidy (s s' : SiteMonitor) (c : string) (e : option Q) :
  effect sqrt s c e s' -> tidy s -> tidy s'.
Proof.
  intros T I c' l' rms' Hl' Hr'.
  pose proof (effect_config s s' c e T) as Hcfg.
  assert (Hb : burn_in s' = burn_in s) by (unfold config in Hcfg; congruence).
  rewrite Hb.
  destruct (decide (c' = c)) as [-> | Hne].
  2:{ destruct (effect_other s s' c c' e T Hne) as (H1 & H2 & _ & H4).
      rewrite H1 in Hl'. rewrite H2 in Hr'. rewrite H4. apply I; assumption. }
  destruct T as [Hn | l Hl He | l v Hl He Hlen | l rms v s1 Hl He Hlen Ho Hr ->
                | l rms b d v s1 Hl He Hlen Ho Hr Hbm Hd -> | l rms v Hl He Hlen Ho Hr Hbm];
    try (apply I; assumption);
    simpl in Hl', Hr' |- *; autorewrite with tables in Hl', Hr' |- *; simpl in Hl', Hr' |- *;
    rewrite ?lookup_insert_eq in Hl'; rewrite ?lookup_insert_eq in Hr';
    rewrite ?lookup_insert_eq.
  - injection Hl' as <-.
    destruct (I c l rms' Hl Hr') as [Hf Ht]. split.
    + intros Ho _. apply Hf; [exact Ho | lia].
    + intros Ho. destruct (Ht Ho) as [_ H]. lia.
  - injection Hl' as <-. injection Hr' as <-.
    destruct (I c l rms Hl Hr) as [Hf _]. split; [discriminate |].
    intros _. rewrite (Hf Ho) by lia. rewrite !length_app. simpl length. lia.
  - injection Hl' as <-. injection Hr' as <-.
    destruct (I c l rms Hl Hr) as [_ Ht]. split; [congruence |].
    intros _. destruct (Ht Ho) as [H0 H]. rewrite !length_app. simpl length. lia.
  - injection Hl' as <-. injection Hr' as <-. split; [| congruence].
    intros _ Hle. rewrite length_app in Hle. simpl length in Hle. lia.
Qed.


Lemma run_invariant (P : SiteMonitor -> Prop) :
  (forall s c e s', wf sqrt s -> effect sqrt s c e s' -> P s -> P s') ->
  forall (calls : list Call) (s : SiteMonitor), wf sqrt s -> P s -> P (run sqrt s calls).
Proof.
  intros Hstep calls. induction calls as [| k calls IH]; intros s W H; simpl; [exact H |].
  apply IH; [apply wf_step, W |].
  eapply Hstep; [exact W | apply step_effect, W | exact H].
Qed.

Lemma tidy_reached (a : Args) (s0 : SiteMonitor) (calls : list Call) :
  init a = Ok s0 -> tidy (run sqrt s0 calls).
Proof.
  intros Hinit. apply run_invariant.
  - intros s c e s' _. apply effect_tidy.
  - apply (wf_init sqrt a), Hinit.
  - intros c l rms Hl Hr. rewrite (init_rolling a s0 c rms Hinit Hr). split.
    + reflexivity.
    + intros Ho. exfalso. exact (init_over a s0 c Hinit Ho).
Qed.



(** X9.  Whenever a category has a baseline ceiling, [burn_in] is not
    negative and the category's history holds more than [burn_in]
    samples; in particular it is not empty. *)
Theorem baseline_implies_samples
    (a : Args) (s0 : SiteMonitor) (calls : list Call) (c : string) (b : fnum) :
  init a = Ok s0 ->
  let s := run sqrt s0 calls in
  baseline_max s !! c = Some (Some b) ->
  exists l : list Q,
    responses s !! c = Some l /\ 0 <= burn_in s < Z.of_nat (length l) /\ l <> [].
Proof.
  intros Hinit s Hb. pose proof (reached a s0 calls Hinit) as W. fold s in W.
  pose proof (tidy_reached a s0 calls Hinit) as Ht. fold s in Ht.
  assert (Ho : burnin_over s !! c = Some true).
  { assert (Ho : is_Some (burnin_over s !! c)).
    { apply (same_dom_lookup _ (baseline_max s)); [| eauto].
      rewrite (wf_over sqrt s W), (wf_max sqrt s W). reflexivity. }
    destruct Ho as [[|] Ho]; [exact Ho |].
    destruct (wf_before sqrt s W c Ho) as (_ & _ & Hn). congruence. }
  destruct (wf_after sqrt s W c Ho) as (l & Hl & Hlen & _).
  assert (Hr : is_Some (rolling_mean s !! c))
    by (apply (same_dom_lookup _ (responses s)); [apply W | eauto]).
  destruct Hr as [rms Hr].
  destruct (Ht c l rms Hl Hr) as [_ Htrue]. destruct (Htrue Ho) as [H0 _].
  exists l. split; [exact Hl |]. split; [lia |].
  intros ->. simpl in Hlen. lia.
Qed.

(** ** Which calls fail *)




Lemma effect_overlong (s s' : SiteMonitor) (c c1 : string) (e : option Q) :
  effect sqrt s c1 e s' ->
  (burnin_over s !! c = Some false /\
   exists l, responses s !! c = Some l /\ burn_in s < Z.of_nat (length l)) ->
  (burnin_over s' !! c = Some false /\
   exists l, responses s' !! c = Some l /\ burn_in s' < Z.of_nat (length l)).
Proof.
  intros T (Ho & l & Hl & Hlen).
  pose proof (effect_config s s' c1 e T) as Hcfg.
  assert (Hb : burn_in s' = burn_in s) by (unfold config in Hcfg; congruence).
  rewrite Hb.
  destruct (decide (c = c1)) as [<- | Hne].
  2:{ destruct (effect_other s s' c1 c e T Hne) as (H1 & _ & _ & H4).
      rewrite H1, H4. eauto. }
  destruct T as [Hn | l1 Hl1 He | l1 v Hl1 He Hlen1 | l1 rms v s1 Hl1 He Hlen1 Ho1 Hr ->
                | l1 rms b d v s1 Hl1 He Hlen1 Ho1 Hr Hbm Hd -> | l1 rms v Hl1 He Hlen1 Ho1 Hr Hbm];
    eauto; try (rewrite Hl in Hl1; injection Hl1 as <-; lia); try congruence.
  simpl. rewrite lookup_insert_eq. split; [exact Ho |].
  exists (l1 ++ [v]). split; [reflexivity |].
  rewrite Hl in Hl1. injection Hl1 as <-. rewrite length_app. simpl length. lia.
Qed.

(** X11.  A category that starts with more than [burn_in] samples (given
    in a dictionary, or any category when [burn_in] is negative) never
    gets a baseline: every report for it with a supported response raises
    TypeError, after the sample and its rolling mean have been recorded. *)
Theorem overlong_history_raises
    (a : Args) (s0 : SiteMonitor) (calls : list Call) (c : string) (l0 : list Q) :
  init a = Ok s0 ->
  responses s0 !! c = Some l0 -> burn_in s0 < Z.of_nat (length l0) ->
  let s := run sqrt s0 calls in
  exists (l : list Q) (rms : list fnum),
    responses s !! c = Some l /\ rolling_mean s !! c = Some rms /\
    burn_in s < Z.of_nat (length l) /\
    baseline s c = (Some None, Some None, Some None) /\
    forall (k : Call) (e : Q),
      resolve s (c_category k) = c -> elapsed_of (c_response k) = Some e ->
      track_request sqrt (c_response k) (c_category k) (c_sample k) s =
      (observe c l rms e s, Raise TypeError).
Proof.
  intros Hinit Hl0 Hlen0 s.
  pose proof (reached a s0 calls Hinit) as W. fold s in W.
  assert (I : burnin_over s !! c = Some false /\
              exists l, responses s !! c = Some l /\ burn_in s < Z.of_nat (length l)).
  { unfold s. apply (run_invariant (fun s =>
      burnin_over s !! c = Some false /\
      exists l, responses s !! c = Some l /\ burn_in s < Z.of_nat (length l))).
    - intros s1 c1 e1 s1' _ T. apply (effect_overlong s1 s1' c c1 e1 T).
    - apply (wf_init sqrt a), Hinit.
    - split; [| eauto].
      assert (Ho : is_Some (burnin_over s0 !! c)).
      { apply (same_dom_lookup _ (responses s0)); [apply (wf_init sqrt a s0 Hinit) | eauto]. }
      destruct Ho as [[|] Ho]; [| exact Ho].
      exfalso. exact (init_over a s0 c Hinit Ho). }
  destruct I as (Ho & l & Hl & Hlen).
  assert (Hr : is_Some (rolling_mean s !! c))
    by (apply (same_dom_lookup _ (responses s)); [apply W | eauto]).
  destruct Hr as [rms Hr].
  destruct (wf_before sqrt s W c Ho) as (Ha & Hs & Hm).
  exists l, rms. split; [exact Hl |]. split; [exact Hr |]. split; [exact Hlen |].
  split; [unfold baseline; rewrite Ha, Hs, Hm; reflexivity |].
  intros k e Hk He. destruct k as [resp cat u]. simpl in *. subst c.
  apply (track_no_baseline sqrt resp cat u s l rms e); try assumption; lia.
Qed.

Lemma controller_settled (v : bool) (d : Q) (s : SiteMonitor) :
  counters_settled s -> counters_settled (controller v d s).
Proof.
  unfold counters_settled, controller. intros (H1 & H2 & H3 & H4).
  destruct v.
  - destruct (Z.leb_spec (slow_down_thresh s) (num_violations s + 1)); simpl; lia.
  - destruct (Qltb (d_min (delays s)) d); [| lia].
    destruct (Z.leb_spec (speed_up_thresh s) (num_successes s + 1)); simpl; lia.
Qed.

Lemma effect_settled (s s' : SiteMonitor) (c : string) (e : option Q) :
  effect sqrt s c e s' -> counters_settled s -> counters_settled s'.
Proof.
  intros T I. destruct T; subst; try exact I.
  - match goal with |- counters_settled (emitted _ (controller ?v ?d ?so)) =>
      change (counters_settled (controller v d so)) end.
    apply controller_settled. exact I.
  - match goal with |- counters_settled (emitted _ (controller ?v ?d ?so)) =>
      change (counters_settled (controller v d so)) end.
    apply controller_settled. exact I.
Qed.

(** X12.  Between calls the counters are never negative and each is
    either zero or strictly below its threshold: a counter that reaches
    its threshold is reset within the same call. *)
Theorem counters_below_thresholds
    (a : Args) (s0 : SiteMonitor) (calls : list Call) :
  init a = Ok s0 ->
  let s := run sqrt s0 calls in
  0 <= num_violations s /\ 0 <= num_successes s /\
  (num_violations s = 0 \/ num_violations s < slow_down_thresh s) /\
  (num_successes s = 0 \/ num_successes s < speed_up_thresh s).
Proof.
  intros Hinit s. unfold s. apply (run_invariant counters_settled).
  - intros s1 c e s1' _. apply effect_settled.
  - apply (wf_init sqrt a), Hinit.
  - revert Hinit. unfold init, counters_settled.
    destruct (a_categories a); try discriminate; intros H; injection H as <-; simpl; lia.
Qed.

(** ** The constructor *)


(** X2.  The [delays] argument only overrides the five known keys: an
    entry under any other key has no effect, and an empty dictionary is
    the same as no argument. *)
Theorem delays_update_known_keys (m : gmap string Q) (k : string) (v : Q) :
  k ∉ ["burnin"; "min"; "max"; "interval"; "current"] ->
  update_delays (Some (<[k := v]> m)) = update_delays (Some m) /\
  update_delays (Some ∅) = update_delays None.
Proof.
  intros Hk. split; [| reflexivity].
  unfold update_delays.
  rewrite !lookup_insert_ne; [reflexivity | ..]; intros ->; apply Hk;
    repeat (first [apply list_elem_of_here | apply list_elem_of_further]).
Qed.

(** X3.  The constructor clamps [start_delay] into the delay bounds: it
    is [min] for an argument below [min <= max], the argument itself when
    that lies within the bounds, and [max] for an argument above [max];
    when the bounds are crossed ([max < min]) it is [max] whatever the
    argument. *)
Theorem start_delay_clamped (a : Args) (s : SiteMonitor) :
  init a = Ok s ->
  let x := a_start_delay a in
  let lo := d_min (delays s) in
  let hi := d_max (delays s) in
  ((x < lo)%Q -> (lo <= hi)%Q -> start_delay s = lo) /\
  ((lo <= x)%Q -> (x <= hi)%Q -> start_delay s = x) /\
  ((hi < x)%Q -> start_delay s = hi) /\
  ((hi < lo)%Q -> start_delay s = hi).
Proof.
  intros Hinit x lo hi. rewrite (init_start_delay a s Hinit). fold x lo hi.
  unfold py_min, py_max.
  destruct (Qltb x lo) eqn:E1.
  - apply Qltb_lt in E1. destruct (Qltb hi lo) eqn:E2.
    + apply Qltb_lt in E2. repeat split; intros; try reflexivity; lra.
    + apply Qltb_ge in E2. repeat split; intros; try reflexivity; lra.
  - apply Qltb_ge in E1. destruct (Qltb hi x) eqn:E2.
    + apply Qltb_lt in E2. repeat split; intros; try reflexivity; lra.
    + apply Qltb_ge in E2. repeat split; intros; try reflexivity; lra.
Qed.

(** ** Reports during the burn-in, and the histogram *)

Lemma tracker_incr_other (t : list (option Q * Z)) (k k' : option Q) :
  key_eqb k k' = false -> tracker_get (tracker_incr t k) k' = tracker_get t k'.
Proof.
  intros Hk. induction t as [| [k0 n] t IH]; simpl.
  - rewrite Hk. reflexivity.
  - destruct (key_eqb k0 k) eqn:E0; simpl.
    + destruct (key_eqb k0 k') eqn:E1; [| reflexivity].
      rewrite key_eqb_sym in E0. rewrite (key_eqb_trans k k0 k' E0 E1) in Hk. discriminate.
    + destruct (key_eqb k0 k'); [reflexivity | exact IH].
Qed.

Lemma finish_plain (u d : Q) (s : SiteMonitor) :
  truthy (rand s) = None ->
  finish u (Some d) s =
  (emitted (Some d) s,
   if handle_timer s then (if Qltb d 0 then Raise ValueError else Ok (Slept d))
   else Ok (Returned (Some d))).
Proof.
  intros Hr. unfold finish, emitted. unfold_steps. simpl. rewrite Hr. simpl.
  destruct (handle_timer s); simpl; [| reflexivity].
  destruct (Qltb d 0); reflexivity.
Qed.

(** X4.  A report for a category that holds fewer than [burn_in] samples
    appends the sample to that category's history, counts one more
    emission of the burn-in delay in the histogram, and changes nothing
    else: counters, current delay, baselines, rolling means and flags
    stay.  Without jitter the burn-in delay itself is handed back:
    returned when [handle_timer] is off, slept when it is on and the
    delay is not negative. *)
Theorem burnin_report
    (resp : Response) (cat : option string) (u : Q) (s : SiteMonitor) (l : list Q) (e : Q) :
  let c := resolve s cat in
  let d := d_burnin (delays s) in
  responses s !! c = Some l ->
  Z.of_nat (length l) < burn_in s ->
  elapsed_of resp = Some e ->
  let s' := fst (track_request sqrt resp cat u s) in
  let r := snd (track_request sqrt resp cat u s) in
  responses s' = <[c := l ++ [e]]> (responses s) /\
  set_delay_tracker (delay_tracker s) (set_responses (responses s) s') = s /\
  tracker_get (delay_tracker s') (Some d) = tracker_get (delay_tracker s) (Some d) + 1 /\
  (forall d', key_eqb (Some d) d' = false ->
     tracker_get (delay_tracker s') d' = tracker_get (delay_tracker s) d') /\
  (truthy (rand s) = None -> handle_timer s = false -> r = Ok (Returned (Some d))) /\
  (truthy (rand s) = None -> handle_timer s = true -> (0 <= d)%Q -> r = Ok (Slept d)).
Proof.
  intros c d Hl Hlen He s' r.
  pose proof (track_burnin sqrt resp cat u s l e Hl Hlen He) as Ht. fold c d in Ht.
  assert (Hs' : s' = emitted (Some d) (set_responses (<[c := l ++ [e]]> (responses s)) s)).
  { unfold s'. rewrite Ht. apply finish_state. }
  split; [rewrite Hs'; reflexivity |].
  split; [rewrite Hs'; destruct s; reflexivity |].
  split.
  { rewrite Hs'. simpl. apply tracker_incr_get. simpl. apply Qeq_bool_iff. reflexivity. }
  split.
  { intros d' Hd'. rewrite Hs'. simpl. apply tracker_incr_other. exact Hd'. }
  split.
  - intros Hr Hh. unfold r. rewrite Ht, finish_plain by exact Hr. simpl. rewrite Hh.
    reflexivity.
  - intros Hr Hh Hd. unfold r. rewrite Ht, finish_plain by exact Hr. simpl. rewrite Hh.
    assert (Hn : Qltb d 0 = false) by (apply Qltb_ge; exact Hd).
    rewrite Hn. reflexivity.
Qed.

Lemma effect_tracker (s s' : SiteMonitor) (c : string) (e : option Q) :
  effect sqrt s c e s' ->
  delay_tracker s' = delay_tracker s \/
  exists k : option Q, delay_tracker s' = tracker_incr (delay_tracker s) k.
Proof.
  intros T. destruct T; subst; simpl; auto; right; eexists.
  - reflexivity.
  - rewrite controller_tracker. reflexivity.
  - rewrite controller_tracker. reflexivity.
Qed.

Lemma tracker_incr_cases (t : list (option Q * Z)) (k k' : option Q) :
  tracker_get (tracker_incr t k) k' =
  tracker_get t k' + (if key_eqb k k' then 1 else 0).
Proof.
  destruct (key_eqb k k') eqn:E.
  - apply tracker_incr_get. exact E.
  - rewrite tracker_incr_other by exact E. lia.
Qed.

Lemma run_tracker (more : list Call) (s : SiteMonitor) (key : option Q) :
  wf sqrt s ->
  tracker_get (delay_tracker s) key <= tracker_get (delay_tracker (run sqrt s more)) key <=
  tracker_get (delay_tracker s) key + Z.of_nat (length more).
Proof.
  revert s. induction more as [| k more IH]; intros s W; simpl run; simpl length; [lia |].
  specialize (IH (step sqrt s k) (wf_step sqrt s k W)).
  destruct (effect_tracker s _ _ _ (step_effect s k W)) as [H | [k0 H]].
  - rewrite H in IH. lia.
  - rewrite H, tracker_incr_cases in IH. destruct (key_eqb k0 key); lia.
Qed.

(** X15.  The histogram only counts up: under any further calls the count
    of every delay value stays or grows, by at most one per call; and a
    single call raises the count of one delay value at most (of two
    values whose counts both rise, the one equals the other). *)
Theorem histogram_monotone
    (a : Args) (s0 : SiteMonitor) (calls more : list Call) (k : Call) :
  init a = Ok s0 ->
  let s := run sqrt s0 calls in
  (forall key,
     tracker_get (delay_tracker s) key <= tracker_get (delay_tracker (run sqrt s more)) key <=
     tracker_get (delay_tracker s) key + Z.of_nat (length more)) /\
  (forall k1 k2,
     tracker_get (delay_tracker s) k1 < tracker_get (delay_tracker (step sqrt s k)) k1 ->
     tracker_get (delay_tracker s) k2 < tracker_get (delay_tracker (step sqrt s k)) k2 ->
     key_eqb k1 k2 = true).
Proof.
  intros Hinit s. pose proof (reached a s0 calls Hinit) as W. fold s in W.
  split; [intros key; apply run_tracker, W |].
  intros k1 k2 H1 H2.
  destruct (effect_tracker s _ _ _ (step_effect s k W)) as [H | [k0 H]];
    rewrite H in H1, H2; [lia |].
  rewrite tracker_incr_cases in H1, H2.
  destruct (key_eqb k0 k1) eqn:E1; [| lia]. destruct (key_eqb k0 k2) eqn:E2; [| lia].
  rewrite key_eqb_sym in E1. exact (key_eqb_trans k1 k0 k2 E1 E2).
Qed.

(** ** The rolling window *)

Lemma monitoring_records (c : string) (e : Q) (s : SiteMonitor)
    (l : list Q) (rms : list fnum) :
  responses s !! c = Some l ->
  rolling_mean s !! c = Some rms ->
  responses (fst (_monitoring_process c e s)) !! c = Some (l ++ [e]) /\
  rolling_mean (fst (_monitoring_process c e s)) !! c =
    Some (rms ++ [rolling (rolling_mean_length s) l e]).
Proof.
  intros Hl Hr.
  unfold _monitoring_process, _halt_event, rolling. unfold_steps. simpl.
  rewrite Hl. simpl. rewrite Hr. simpl.
  generalize (mean (slice_from_neg (rolling_mean_length s) (l ++ [e]))). intros m.
  destruct (baseline_max s !! c) as [[b |] |]; simpl; rewrite ?lookup_insert_eq; auto.
  destruct (fgt m b); simpl.
  - destruct (slow_down_thresh s <=? num_violations s + 1); simpl;
      rewrite ?lookup_insert_eq; auto.
    unfold current. simpl.
    destruct (d_current (delays s)) as [d |]; simpl; rewrite ?lookup_insert_eq; auto.
    destruct (Qltb (d_max (delays s)) (d + d_interval (delays s))); simpl;
      rewrite ?lookup_insert_eq; auto.
  - unfold current. simpl.
    destruct (d_current (delays s)) as [d |]; simpl; rewrite ?lookup_insert_eq; auto.
    destruct (Qltb (d_min (delays s)) d); simpl; rewrite ?lookup_insert_eq; auto.
    destruct (speed_up_thresh s <=? num_successes s + 1); simpl;
      rewrite ?lookup_insert_eq; auto.
Qed.

(** X17.  The window of the rolling mean that [_monitoring_process]
    records, [responses[-rolling_mean_length:]] after the new sample was
    appended: for a length of zero it is the whole history, not an empty
    list; for a positive length [n] it is the end of the history, of [n]
    samples or of all of them when there are fewer; for a negative
    length it is the history without its first [-n] samples. *)
Theorem window_shape
    (c : string) (e : Q) (s : SiteMonitor) (l : list Q) (rms : list fnum) :
  responses s !! c = Some l ->
  rolling_mean s !! c = Some rms ->
  let n := rolling_mean_length s in
  let h := l ++ [e] in
  exists w : list Q,
    rolling_mean (fst (_monitoring_process c e s)) !! c = Some (rms ++ [mean w]) /\
    (n = 0 -> w = h) /\
    (0 < n -> w `suffix_of` h /\ Z.of_nat (length w) = Z.min n (Z.of_nat (length h))) /\
    (n < 0 -> w = drop (Z.to_nat (- n)) h).
Proof.
  intros Hl Hr n h. exists (slice_from_neg n h).
  split; [apply (monitoring_records c e s l rms Hl Hr) |].
  unfold slice_from_neg. cbv zeta. generalize h. clear. intros l. repeat split.
  - intros ->. change (0 <? 0) with false. cbv iota.
    replace (Z.to_nat (Z.min (- 0) (Z.of_nat (length l)))) with 0%nat by lia.
    reflexivity.
  - apply suffix_drop.
  - destruct (Z.ltb_spec 0 n); [| lia]. rewrite length_drop. lia.
  - intros Hn. destruct (Z.ltb_spec 0 n); [lia |].
    destruct (Z.le_gt_cases (- n) (Z.of_nat (length l))) as [Hle | Hgt].
    + rewrite Z.min_l by lia. reflexivity.
    + rewrite Z.min_r by lia. rewrite Nat2Z.id, drop_all, drop_ge by lia. reflexivity.
Qed.




(** ** The controller *)

Lemma monitored_step (s : SiteMonitor) (k : Call) (e : Q) :
  wf sqrt s ->
  let c := resolve s (c_category k) in
  burnin_over s !! c = Some true ->
  elapsed_of (c_response k) = Some e ->
  exists (l : list Q) (rms : list fnum) (b : fnum) (d : Q),
    responses s !! c = Some l /\ rolling_mean s !! c = Some rms /\
    baseline_max s !! c = Some (Some b) /\ current s = Some d /\
    b = fadd (mean (take (Z.to_nat (burn_in s)) l))
             (fscale (choke_point s) (std sqrt (take (Z.to_nat (burn_in s)) l))) /\
    let s1 := controller (fgt (rolling (rolling_mean_length s) l e) b) d (observe c l rms e s) in
    track_request sqrt (c_response k) (c_category k) (c_sample k) s =
      finish (c_sample k) (current s1) s1 /\
    step sqrt s k = emitted (current s1) s1.
Proof.
  intros W c Ho He. destruct k as [resp cat u]. simpl in *. fold c.
  destruct (wf_after sqrt s W c Ho) as (l & Hl & Hlen & _ & _ & Hb & [d Hd]).
  simpl in Hb.
  assert (Hrm : is_Some (rolling_mean s !! c))
    by (apply (same_dom_lookup _ (responses s)); [apply W | eauto]).
  destruct Hrm as [rms Hrm].
  assert (Hlen' : burn_in s <= Z.of_nat (length l)) by lia.
  pose proof (track_monitoring sqrt resp cat u s l rms _ d e Hl Hlen' (fun _ => Ho) Hrm Hb Hd He)
    as Ht. simpl in Ht. fold c in Ht.
  exists l, rms,
    (fadd (mean (take (Z.to_nat (burn_in s)) l))
       (fscale (choke_point s) (std sqrt (take (Z.to_nat (burn_in s)) l)))), d.
  split; [exact Hl |]. split; [exact Hrm |]. split; [exact Hb |]. split; [exact Hd |].
  split; [reflexivity |].
  split; [exact Ht |]. unfold step. simpl. rewrite Ht. apply finish_state.
Qed.

Lemma controller_moves (v : bool) (d : Q) (s : SiteMonitor) :
  current s = Some d ->
  exists d' : Q,
    current (controller v d s) = Some d' /\
    (d' = d \/ (num_violations (controller v d s) = 0 /\ num_successes (controller v d s) = 0)) /\
    ((0 <= d_interval (delays s))%Q ->
     (if v then (d <= d_max (delays s) -> d <= d' /\ d' <= d + d_interval (delays s))%Q
      else (d - d_interval (delays s) <= d' /\ d' <= d)%Q)).
Proof.
  intros Hd. unfold controller, raised, py_max. destruct v.
  - destruct (slow_down_thresh s <=? num_violations s + 1).
    + eexists. split; [reflexivity |]. split; [right; split; reflexivity |].
      intros Hi Hm.
      destruct (Qltb (d_max (delays s)) (d + d_interval (delays s))) eqn:E.
      * apply Qltb_lt in E. lra.
      * lra.
    + exists d. split; [exact Hd |]. split; [left; reflexivity |]. intros Hi Hm. lra.
  - destruct (Qltb (d_min (delays s)) d) eqn:El.
    + apply Qltb_lt in El. destruct (speed_up_thresh s <=? num_successes s + 1).
      * eexists. split; [reflexivity |]. split; [right; split; reflexivity |].
        intros Hi.
        destruct (Qltb (d - d_interval (delays s)) (d_min (delays s))) eqn:E.
        -- apply Qltb_lt in E. lra.
        -- lra.
      * exists d. split; [exact Hd |]. split; [left; reflexivity |]. intros Hi. lra.
    + exists d. split; [exact Hd |]. split; [left; reflexivity |]. intros Hi. lra.
Qed.

(** X13.  A report for a category past its burn-in moves the delay by at
    most one step ([interval] not negative, delay not above [max]): up,
    or not at all, when the rolling mean is above the ceiling; down, or
    not at all, when it is not.  The delay changes only in a call that
    also resets both counters to zero. *)
Theorem delay_moves_one_step
    (a : Args) (s0 : SiteMonitor) (calls : list Call) (k : Call)
    (e d : Q) (l : list Q) (b : fnum) :
  init a = Ok s0 ->
  let s := run sqrt s0 calls in
  let s' := step sqrt s k in
  let c := resolve s (c_category k) in
  burnin_over s !! c = Some true ->
  elapsed_of (c_response k) = Some e ->
  responses s !! c = Some l ->
  baseline_max s !! c = Some (Some b) ->
  current s = Some d ->
  (0 <= d_interval (delays s))%Q ->
  (d <= d_max (delays s))%Q ->
  exists d' : Q,
    current s' = Some d' /\
    (d - d_interval (delays s) <= d')%Q /\ (d' <= d + d_interval (delays s))%Q /\
    (d' = d \/ (num_violations s' = 0 /\ num_successes s' = 0)) /\
    (if fgt (rolling (rolling_mean_length s) l e) b then (d <= d')%Q else (d' <= d)%Q).
Proof.
  intros Hinit s s' c Ho He Hl Hb Hd Hi Hm.
  pose proof (reached a s0 calls Hinit) as W. fold s in W.
  destruct (monitored_step s k e W Ho He)
    as (l1 & rms & b1 & d1 & Hl1 & Hr1 & Hb1 & Hd1 & _ & _ & Hs).
  fold c in Hl1, Hr1, Hb1, Hs. fold s' in Hs.
  rewrite Hl in Hl1. injection Hl1 as <-. rewrite Hb in Hb1. injection Hb1 as <-.
  rewrite Hd in Hd1. injection Hd1 as <-.
  destruct (controller_moves (fgt (rolling (rolling_mean_length s) l e) b) d
              (observe c l rms e s) Hd) as (d' & Hd' & Hc & Hrange).
  specialize (Hrange Hi).
  exists d'. rewrite Hs.
  split; [exact Hd' |].
  change (rolling_mean_length (observe c l rms e s)) with (rolling_mean_length s) in *.
  change (delays (observe c l rms e s)) with (delays s) in Hrange.
  destruct (fgt (rolling (rolling_mean_length s) l e) b).
  - specialize (Hrange Hm). repeat split; try lra. exact Hc.
  - repeat split; try lra. exact Hc.
Qed.

Lemma fgt_nan (x : fnum) : fgt x NaN = false.
Proof. destruct x; reflexivity. Qed.

Lemma controller_quiet (d : Q) (s : SiteMonitor) :
  num_violations s = 0 -> num_violations (controller false d s) = 0.
Proof.
  intros H. unfold controller.
  destruct (Qltb (d_min (delays s)) d); [| exact H].
  destruct (speed_up_thresh s <=? num_successes s + 1); [reflexivity | exact H].
Qed.

Lemma effect_quiet (s s' : SiteMonitor) (c : string) (e : option Q) :
  wf sqrt s -> effect sqrt s c e s' ->
  burn_in s = 0 /\ num_violations s = 0 -> burn_in s' = 0 /\ num_violations s' = 0.
Proof.
  intros W T [H0 Hv]. destruct T; subst; try (split; assumption).
  - match goal with H : Z.of_nat (length ?l) = burn_in s |- _ =>
      rewrite H0 in H; destruct l; [| discriminate H] end.
    change (mean []) with NaN. change (fadd NaN ?x) with NaN. rewrite fgt_nan.
    split; [match goal with |- burn_in (emitted _ ?x) = _ => change (burn_in x = 0) end;
            rewrite controller_burn_in; exact H0 |].
    rewrite emitted_num_violations. apply controller_quiet. exact Hv.
  - match goal with Ho : burnin_over s !! c = Some true,
                    Hb : baseline_max s !! c = Some (Some ?b) |- _ =>
      destruct (wf_after sqrt s W c Ho) as (l' & _ & _ & _ & _ & Hb' & _);
      simpl in Hb'; rewrite H0 in Hb'; change (take (Z.to_nat 0) l') with (@nil Q) in Hb';
      change (mean []) with NaN in Hb'; change (fadd NaN ?x) with NaN in Hb';
      rewrite Hb in Hb'; injection Hb' as -> end.
    rewrite fgt_nan.
    split; [match goal with |- burn_in (emitted _ ?x) = _ => change (burn_in x = 0) end;
            rewrite controller_burn_in; exact H0 |].
    rewrite emitted_num_violations. apply controller_quiet. exact Hv.
Qed.

(** X18.  With [burn_in = 0] the baseline is taken over no sample at all:
    every ceiling is NaN, no rolling mean compares above it, and so no
    violation is ever counted and no report raises the delay, whatever
    the latencies reported. *)
Theorem zero_burn_in_never_slows
    (a : Args) (s0 : SiteMonitor) (calls : list Call) :
  init a = Ok s0 ->
  a_burn_in a = 0 ->
  let s := run sqrt s0 calls in
  (forall c b, baseline_max s !! c = Some (Some b) -> b = NaN) /\
  num_violations s = 0 /\
  (forall (k : Call) (e d : Q),
     burnin_over s !! resolve s (c_category k) = Some true ->
     elapsed_of (c_response k) = Some e ->
     current s = Some d -> (0 <= d_interval (delays s))%Q ->
     exists d' : Q, current (step sqrt s k) = Some d' /\ (d' <= d)%Q).
Proof.
  intros Hinit Hz s.
  pose proof (reached a s0 calls Hinit) as W. fold s in W.
  assert (I : burn_in s = 0 /\ num_violations s = 0).
  { unfold s. apply (run_invariant (fun s => burn_in s = 0 /\ num_violations s = 0)).
    - intros s1 c e s1'. apply effect_quiet.
    - apply (wf_init sqrt a), Hinit.
    - revert Hinit. unfold init.
      destruct (a_categories a); try discriminate; intros H; injection H as <-;
        simpl; auto. }
  destruct I as [H0 Hv].
  assert (Hnan : forall c b, baseline_max s !! c = Some (Some b) -> b = NaN).
  { intros c b Hb.
    assert (Ho : is_Some (burnin_over s !! c)).
    { apply (same_dom_lookup _ (baseline_max s)); [| eauto].
      rewrite (wf_over sqrt s W), (wf_max sqrt s W). reflexivity. }
    destruct Ho as [[|] Ho].
    - destruct (wf_after sqrt s W c Ho) as (l' & _ & _ & _ & _ & Hb' & _).
      simpl in Hb'. rewrite H0 in Hb'. change (take (Z.to_nat 0) l') with (@nil Q) in Hb'.
      change (mean []) with NaN in Hb'. rewrite Hb in Hb'. injection Hb' as ->. reflexivity.
    - destruct (wf_before sqrt s W c Ho) as (_ & _ & Hb'). rewrite Hb in Hb'. discriminate. }
  split; [exact Hnan |]. split; [exact Hv |].
  intros k e d Ho He Hd Hi.
  destruct (monitored_step s k e W Ho He)
    as (l1 & rms & b1 & d1 & Hl1 & Hr1 & Hb1 & Hd1 & _ & _ & Hs).
  rewrite Hd in Hd1. injection Hd1 as <-.
  rewrite (Hnan _ _ Hb1), fgt_nan in Hs.
  destruct (controller_moves false d (observe (resolve s (c_category k)) l1 rms e s) Hd)
    as (d' & Hd' & _ & Hrange).
  exists d'. rewrite Hs. split; [exact Hd' |]. apply Hrange. exact Hi.
Qed.



End More.

(** * Instances of the further properties *)


Lemma history_append_only_witness :
  exists s0 : SiteMonitor,
    init scenario_args = Ok s0 /\
    let s := run sqrt_floor s0 (map report [1; 1; 1]%Q) in
    let more := map report [1; 1; 5]%Q in
    responses s !! "main" = Some [1; 1; 1]%Q /\
    exists (rms : list fnum) (t : list Q) (t' : list fnum),
      rolling_mean s !! "main" = Some rms /\
      responses (run sqrt_floor s more) !! "main" = Some ([1; 1; 1]%Q ++ t) /\
      rolling_mean (run sqrt_floor s more) !! "main" = Some (rms ++ t') /\
      (length t <= length more)%nat /\ (length t' <= length t)%nat.
Proof.
  eexists. split; [reflexivity |]. cbv zeta.
  split; [vm_compute; reflexivity |].
  apply (history_append_only sqrt_floor scenario_args _ (map report [1; 1; 1]%Q)
           (map report [1; 1; 5]%Q) "main" [1; 1; 1]%Q eq_refl).
  vm_compute; reflexivity.
Defined.

Lemma burnin_flag_witness :
  exists s0 : SiteMonitor,
    init scenario_args = Ok s0 /\
    let s := run sqrt_floor s0 (map report [1; 1; 1; 1; 1; 5]%Q) in
    (burnin_over s !! "main" = Some true <->
     exists b, baseline_max s !! "main" = Some (Some b)) /\
    (burnin_over s !! "main" = Some true ->
     burnin_over (run sqrt_floor s (map report [5; 5]%Q)) !! "main" = Some true).
Proof.
  eexists. split; [reflexivity |].
  apply (burnin_flag sqrt_floor scenario_args _ (map report [1; 1; 1; 1; 1; 5]%Q)
           (map report [5; 5]%Q) "main" eq_refl).
Defined.



Lemma baseline_implies_samples_witness :
  exists s0 : SiteMonitor,
    init scenario_args = Ok s0 /\
    let s := run sqrt_floor s0 (map report [1; 1; 1; 1; 1; 5]%Q) in
    exists b : fnum,
      baseline_max s !! "main" = Some (Some b) /\
      exists l : list Q,
        responses s !! "main" = Some l /\ 0 <= burn_in s < Z.of_nat (length l) /\ l <> [].
Proof.
  eexists. split; [reflexivity |]. cbv zeta. eexists.
  split; [vm_compute; reflexivity |].
  eapply (baseline_implies_samples sqrt_floor scenario_args _
            (map report [1; 1; 1; 1; 1; 5]%Q) "main"); [reflexivity |].
  vm_compute; reflexivity.
Defined.


Lemma overlong_history_raises_witness :
  exists s0 : SiteMonitor,
    init preseeded_args = Ok s0 /\
    responses s0 !! "a" = Some [1; 2; 3]%Q /\
    burn_in s0 < Z.of_nat (length [1; 2; 3]%Q) /\
    let s := run sqrt_floor s0 [report_to "a" 4] in
    exists (l : list Q) (rms : list fnum),
      responses s !! "a" = Some l /\ rolling_mean s !! "a" = Some rms /\
      track_request sqrt_floor (Float 5) (Some "a") 0%Q s =
      (observe "a" l rms 5%Q s, Raise TypeError).
Proof.
  eexists. split; [reflexivity |].
  split; [vm_compute; reflexivity |]. split; [vm_compute; reflexivity |].
  destruct (overlong_history_raises sqrt_floor preseeded_args _ [report_to "a" 4]
              "a" [1; 2; 3]%Q eq_refl ltac:(vm_compute; reflexivity)
              ltac:(vm_compute; reflexivity))
    as (l & rms & Hl & Hr & _ & _ & Hk).
  exists l, rms. split; [exact Hl |]. split; [exact Hr |].
  apply (Hk (mkCall (Float 5) (Some "a") 0%Q) 5%Q); reflexivity.
Defined.

Lemma delays_update_known_keys_witness :
  ("step" ∉ ["burnin"; "min"; "max"; "interval"; "current"]) /\
  update_delays (Some (<["step" := 1%Q]> {[ "max" := 20%Q ]})) =
    update_delays (Some {[ "max" := 20%Q ]}) /\
  update_delays (Some ∅) = update_delays None.
Proof.
  assert (H : "step" ∉ ["burnin"; "min"; "max"; "interval"; "current"]).
  { intros H. repeat (apply elem_of_cons in H as [H | H]; [discriminate H |]).
    inversion H. }
  split; [exact H |].
  exact (delays_update_known_keys {[ "max" := 20%Q ]} "step" 1%Q H).
Defined.

Lemma start_delay_clamped_witness :
  exists s0 : SiteMonitor,
    init zero_burn_in_args = Ok s0 /\
    (d_min (delays s0) <= a_start_delay zero_burn_in_args)%Q /\
    (a_start_delay zero_burn_in_args <= d_max (delays s0))%Q /\
    start_delay s0 = 10%Q.
Proof.
  eexists. split; [reflexivity |].
  split; [vm_compute; discriminate |]. split; [vm_compute; discriminate |].
  apply (start_delay_clamped zero_burn_in_args _ eq_refl); vm_compute; discriminate.
Defined.

Lemma counters_below_thresholds_witness :
  exists s0 : SiteMonitor,
    init scenario_args = Ok s0 /\
    let s := run sqrt_floor s0 (map report [1; 1; 1; 1; 1; 5]%Q) in
    0 <= num_violations s /\ 0 <= num_successes s /\
    (num_violations s = 0 \/ num_violations s < slow_down_thresh s) /\
    (num_successes s = 0 \/ num_successes s < speed_up_thresh s).
Proof.
  eexists. split; [reflexivity |].
  apply (counters_below_thresholds sqrt_floor scenario_args _
           (map report [1; 1; 1; 1; 1; 5]%Q) eq_refl).
Defined.

Lemma burnin_report_witness :
  exists s : SiteMonitor,
    init scenario_args = Ok s /\
    responses s !! resolve s None = Some [] /\
    Z.of_nat (length (@nil Q)) < burn_in s /\
    elapsed_of (Float 1) = Some 1%Q /\
    let s' := fst (track_request sqrt_floor (Float 1) None 0%Q s) in
    let r := snd (track_request sqrt_floor (Float 1) None 0%Q s) in
    responses s' = <[resolve s None := [] ++ [1%Q]]> (responses s) /\
    set_delay_tracker (delay_tracker s) (set_responses (responses s) s') = s /\
    tracker_get (delay_tracker s') (Some (d_burnin (delays s))) =
      tracker_get (delay_tracker s) (Some (d_burnin (delays s))) + 1 /\
    r = Ok (Returned (Some (d_burnin (delays s)))).
Proof.
  eexists. split; [reflexivity |].
  split; [reflexivity |]. split; [vm_compute; reflexivity |]. split; [reflexivity |].
  match goal with |- let s' := fst (track_request _ _ _ _ ?s) in _ =>
    destruct (burnin_report sqrt_floor (Float 1) None 0%Q s [] 1%Q
                eq_refl ltac:(vm_compute; reflexivity) eq_refl)
      as (H1 & H2 & H3 & _ & H5 & _)
  end.
  cbv zeta. split; [exact H1 |]. split; [exact H2 |]. split; [exact H3 |].
  apply H5; reflexivity.
Defined.

Lemma histogram_monotone_witness :
  exists s0 : SiteMonitor,
    init scenario_args = Ok s0 /\
    let s := run sqrt_floor s0 (map report [1; 1; 1]%Q) in
    let more := map report [1; 1; 5; 5]%Q in
    forall key : option Q,
      tracker_get (delay_tracker s) key <=
      tracker_get (delay_tracker (run sqrt_floor s more)) key <=
      tracker_get (delay_tracker s) key + Z.of_nat (length more).
Proof.
  eexists. split; [reflexivity |]. cbv zeta.
  apply (histogram_monotone sqrt_floor scenario_args _ (map report [1; 1; 1]%Q)
           (map report [1; 1; 5; 5]%Q) (report 5) eq_refl).
Defined.

Lemma window_shape_witness :
  exists s0 : SiteMonitor,
    init short_window_args = Ok s0 /\
    let s := run sqrt_floor s0 (map report [1; 1; 1; 1; 1; 5]%Q) in
    responses s !! "main" = Some [1; 1; 1; 1; 1; 5]%Q /\
    0 < rolling_mean_length s /\
    exists (rms : list fnum) (w : list Q),
      rolling_mean s !! "main" = Some rms /\
      rolling_mean (fst (_monitoring_process "main" 9 s)) !! "main" = Some (rms ++ [mean w]) /\
      w `suffix_of` ([1; 1; 1; 1; 1; 5]%Q ++ [9%Q]) /\
      Z.of_nat (length w) =
        Z.min (rolling_mean_length s) (Z.of_nat (length ([1; 1; 1; 1; 1; 5]%Q ++ [9%Q]))).
Proof.
  eexists. split; [reflexivity |]. cbv zeta.
  match goal with |- responses ?st !! _ = _ /\ _ => set (s := st) end.
  assert (Hl : responses s !! "main" = Some [1; 1; 1; 1; 1; 5]%Q) by (vm_compute; reflexivity).
  assert (Hn : 0 < rolling_mean_length s) by (vm_compute; reflexivity).
  eassert (Hr : rolling_mean s !! "main" = Some _) by (vm_compute; reflexivity).
  split; [exact Hl |]. split; [exact Hn |].
  destruct (window_shape "main" 9%Q s _ _ Hl Hr) as (w & Hw & _ & Hpos & _).
  eexists. exists w. split; [exact Hr |]. split; [exact Hw |]. exact (Hpos Hn).
Defined.


Lemma delay_moves_one_step_witness :
  exists s0 : SiteMonitor,
    init scenario_args = Ok s0 /\
    let s := run sqrt_floor s0 (map report [1; 1; 1; 1; 1; 5; 5]%Q) in
    let k := report 5 in
    burnin_over s !! resolve s (c_category k) = Some true /\
    responses s !! resolve s (c_category k) = Some [1; 1; 1; 1; 1; 5; 5]%Q /\
    (0 <= d_interval (delays s))%Q /\
    exists (b : fnum) (d d' : Q),
      baseline_max s !! resolve s (c_category k) = Some (Some b) /\
      current s = Some d /\ (d <= d_max (delays s))%Q /\
      current (step sqrt_floor s k) = Some d' /\
      (d - d_interval (delays s) <= d')%Q /\ (d' <= d + d_interval (delays s))%Q.
Proof.
  eexists. split; [reflexivity |]. cbv zeta.
  match goal with |- burnin_over ?st !! _ = _ /\ _ => set (s := st) end.
  set (k := report 5).
  assert (Ho : burnin_over s !! resolve s (c_category k) = Some true)
    by (vm_compute; reflexivity).
  assert (Hl : responses s !! resolve s (c_category k) = Some [1; 1; 1; 1; 1; 5; 5]%Q)
    by (vm_compute; reflexivity).
  assert (Hi : (0 <= d_interval (delays s))%Q) by (vm_compute; discriminate).
  eassert (Hb : baseline_max s !! resolve s (c_category k) = Some (Some _))
    by (vm_compute; reflexivity).
  eassert (Hd : current s = Some _) by (vm_compute; reflexivity).
  split; [exact Ho |]. split; [exact Hl |]. split; [exact Hi |].
  do 2 eexists.
  match type of Hd with _ = Some ?d =>
    assert (Hm : (d <= d_max (delays s))%Q) by (vm_compute; discriminate)
  end.
  destruct (delay_moves_one_step sqrt_floor scenario_args _
              (map report [1; 1; 1; 1; 1; 5; 5]%Q) k 5%Q _ _ _ eq_refl
              Ho eq_refl Hl Hb Hd Hi Hm)
    as (d' & H1 & H2 & H3 & _).
  exists d'. split; [exact Hb |]. split; [exact Hd |]. split; [exact Hm |]. auto.
Defined.

Lemma zero_burn_in_never_slows_witness :
  exists s0 : SiteMonitor,
    init zero_burn_in_args = Ok s0 /\
    a_burn_in zero_burn_in_args = 0 /\
    let s := run sqrt_floor s0 (map report [1; 100; 100]%Q) in
    baseline_max s !! "main" = Some (Some NaN) /\
    num_violations s = 0.
Proof.
  eexists. split; [reflexivity |]. split; [reflexivity |]. cbv zeta.
  split; [vm_compute; reflexivity |].
  apply (zero_burn_in_never_slows sqrt_floor zero_burn_in_args _
           (map report [1; 100; 100]%Q) eq_refl eq_refl).
Defined.

